(** * goflipmiibo: NTAG215 dump to Flipper NFC text conversion

    A shallow embedding of [main.go] and the properties of its conversion
    pipeline: UID extraction, the NTAG215 default password, the 135 page
    listing, the document header and the batch loop of [main].

    Go values are modelled as follows.
    - [byte] (uint8) is [Byte.byte]; [^] is [N.lxor] on the values, brought
      back to 8 bits.
    - [string] is [String.string], a sequence of 8-bit characters, as a Go
      string is a sequence of bytes.
    - [[]byte] is a [slice]: its elements together with the part of the
      backing array that lies behind them, because Go checks a slice
      expression [s[lo:hi]] against the capacity and not the length.
    - a run-time panic is a [Panic] result. *)

From Stdlib Require Import ZArith NArith Strings.String Strings.Ascii Strings.Byte Lia ZifyNat.
From stdpp Require Import base list strings gmap.

Open Scope string_scope.
Open Scope list_scope.
Open Scope nat_scope.

(** ** Results of Go code that can panic *)

Inductive panic : Type :=
  | SliceBoundsOutOfRange   (* runtime error: slice bounds out of range *)
  | IndexOutOfRange         (* runtime error: index out of range *)
  | LogPanic (msg : string) (* log.Panicln *).

Inductive result (A : Type) : Type :=
  | Ok (a : A)
  | Panic (p : panic)
  | OutOfFuel.
Arguments Ok {A} a.
Arguments Panic {A} p.
Arguments OutOfFuel {A}.

(** [result] is an error monad; sequencing uses stdpp's [x ← e; k]. *)
#[global] Instance result_ret : MRet result := fun A a => Ok a.
#[global] Instance result_bind : MBind result := fun A B k r =>
  match r with
  | Ok a => k a
  | Panic p => Panic p
  | OutOfFuel => OutOfFuel
  end.

(** ** Bytes *)

(** Conversion to uint8: the low 8 bits. *)
Definition byte_of_N (n : N) : byte :=
  match Byte.of_N (n mod 256) with
  | Some b => b
  | None => x00
  end.

(** The Go operator [^] on two bytes. *)
Definition byte_xor (a b : byte) : byte :=
  byte_of_N (N.lxor (Byte.to_N a) (Byte.to_N b)).

(** ** Slices of bytes

    [elems] are the [len(s)] elements of the slice, [spare] is the rest of
    the backing array, from index [len(s)] up to [cap(s)]. *)

Record slice : Type := mkSlice { elems : list byte; spare : list byte }.

Definition slen (s : slice) : nat := length (elems s).
Definition scap (s : slice) : nat := length (elems s) + length (spare s).
Definition backing (s : slice) : list byte := elems s ++ spare s.

(** The slice expression [s[lo:hi]], read as the elements of the new slice.
    For a slice operand Go requires [0 <= lo <= hi <= cap(s)]. *)
Definition subslice (s : slice) (lo hi : nat) : result (list byte) :=
  if (lo <=? hi) && (hi <=? scap s)
  then Ok (take (hi - lo) (drop lo (backing s)))
  else Panic SliceBoundsOutOfRange.

Section Append.
(** The capacity the Go runtime chooses when [append] has to move a slice
    of capacity [c] to hold [n] elements. Go only promises that the new
    array is large enough, so the function is left open; a value below [n]
    is read as [n]. *)
Variable growCap : nat -> nat -> nat.

(** [append(s, b)]: in place when there is spare capacity, otherwise in a
    new zeroed array. *)
Definition append1 (s : slice) (b : byte) : slice :=
  match spare s with
  | _ :: sp => mkSlice (elems s ++ [b]) sp
  | [] => mkSlice (elems s ++ [b])
            (replicate (growCap (scap s) (S (slen s)) - S (slen s)) x00)
  end.
End Append.

(** ** The standard library functions the program calls *)

(** *** encoding/hex *)

Definition hextable : string := "0123456789abcdef".

Definition hexDigit (n : N) : ascii :=
  match String.get (N.to_nat n) hextable with
  | Some c => c
  | None => "0"%char
  end.

(** [hex.EncodeToString]: for each byte [v], [hextable[v>>4]] and
    [hextable[v&0x0f]]. *)
Fixpoint EncodeToString (src : list byte) : string :=
  match src with
  | [] => ""
  | v :: rest =>
      String (hexDigit (N.shiftr (Byte.to_N v) 4))
        (String (hexDigit (N.land (Byte.to_N v) 15)) (EncodeToString rest))
  end.

(** The value of a hexadecimal digit, [None] for any other character
    (hex's [reverseHexTable]). *)
Definition fromHexChar (c : ascii) : option N :=
  let n := N_of_ascii c in
  if (48 <=? n)%N && (n <=? 57)%N then Some (n - 48)%N
  else if (97 <=? n)%N && (n <=? 102)%N then Some (n - 97 + 10)%N
  else if (65 <=? n)%N && (n <=? 70)%N then Some (n - 65 + 10)%N
  else None.

(** [hex.DecodeString], keeping the bytes and dropping the error: the bytes
    decoded before the first invalid character or dangling digit. *)
Fixpoint DecodeString (s : string) : list byte :=
  match s with
  | String p (String q rest) =>
      match fromHexChar p, fromHexChar q with
      | Some a, Some b => byte_of_N (N.lor (N.shiftl a 4) b) :: DecodeString rest
      | _, _ => []
      end
  | _ => []
  end.

(** *** strings *)

(** [strings.ToUpper] on one ASCII character. *)
Definition upperChar (c : ascii) : ascii :=
  let n := N_of_ascii c in
  if (97 <=? n)%N && (n <=? 122)%N then ascii_of_N (n - 32) else c.

(** [strings.ToUpper], for ASCII strings (the program applies it to
    hexadecimal text only). *)
Fixpoint ToUpper (s : string) : string :=
  match s with
  | "" => ""
  | String c rest => String (upperChar c) (ToUpper rest)
  end.

(** [strings.Join]. *)
Fixpoint Join (elts : list string) (sep : string) : string :=
  match elts with
  | [] => ""
  | [e] => e
  | e :: rest => e +:+ sep +:+ Join rest sep
  end.

Fixpoint hasPrefix (p s : string) : bool :=
  match p, s with
  | "", _ => true
  | String a p', String b s' => if Ascii.eqb a b then hasPrefix p' s' else false
  | _, _ => false
  end.

(** Left to right, without overlap: at a match of [old] emit [new] and skip
    the rest of the match. *)
Fixpoint replaceFrom (old new : string) (skip : nat) (s : string) : string :=
  match s with
  | "" => ""
  | String c rest =>
      match skip with
      | S k => replaceFrom old new k rest
      | 0 =>
          if hasPrefix old s
          then new +:+ replaceFrom old new (String.length old - 1) rest
          else String c (replaceFrom old new 0 rest)
      end
  end.

(** [strings.ReplaceAll] for a non-empty [old]; with an empty [old] Go
    inserts [new] around every character, which no call modelled here
    does, and the string is returned as it is. *)
Definition ReplaceAll (s old new : string) : string :=
  match old with
  | "" => s
  | _ => replaceFrom old new 0 s
  end.

(** *** strconv *)

Definition decDigit (n : nat) : ascii := ascii_of_nat (48 + n).

Fixpoint formatDec (fuel n : nat) (acc : string) : string :=
  match fuel with
  | 0 => acc
  | S f =>
      let acc' := String (decDigit (n mod 10)) acc in
      if n / 10 =? 0 then acc' else formatDec f (n / 10) acc'
  end.

(** [strconv.FormatInt(int64(n), 10)] for a non-negative [n]. *)
Definition FormatInt (n : nat) : string := formatDec (S n) n "".

(** *** fmt *)

Inductive fmtArg : Type :=
  | ArgString (s : string)
  | ArgInt (n : nat).

(** [fmt.Sprintf] for the verbs [%s] and [%d], each with an operand of its
    kind; any other text of the format is copied. *)
Fixpoint Sprintf (format : string) (args : list fmtArg) : string :=
  match format with
  | String "%" (String "s" rest as verb) =>
      match args with
      | ArgString s :: args' => s +:+ Sprintf rest args'
      | _ => String "%" (Sprintf verb args)
      end
  | String "%" (String "d" rest as verb) =>
      match args with
      | ArgInt n :: args' => FormatInt n +:+ Sprintf rest args'
      | _ => String "%" (Sprintf verb args)
      end
  | String c rest => String c (Sprintf rest args)
  | "" => ""
  end.

(** The line feed character of the Go escape [\n]. *)
Definition LF : string := String "010" "".

(** ** The program *)

(** NTAG215 has 135 pages (0 to 134) of 4 bytes each. *)
Definition Ntag215PageQuantity : nat := 135.

(** [s[i]] on a string. *)
Definition index (s : string) (i : nat) : result byte :=
  match String.get i s with
  | Some c => Ok (byte_of_ascii c)
  | None => Panic IndexOutOfRange
  end.

(** [l[i] = x] on a slice of strings. *)
Definition setIndex (l : list string) (i : nat) (x : string) : result (list string) :=
  if i <? length l then Ok (<[i := x]> l) else Panic IndexOutOfRange.

Definition extractUid (fileContent : slice) : result string :=
  head ← subslice fileContent 0 3;
  tail ← subslice fileContent 4 8;
  let uidBytes := head ++ tail in
  let strUid := (fun b => ToUpper (EncodeToString [b])) <$> uidBytes in
  Ok (Join strUid " ").

Definition calculatePassword (rawUid : string) : result string :=
  let password : list string := [] in
  u1 ← index rawUid 1; u3 ← index rawUid 3;
  let password := password ++ [EncodeToString [byte_xor (byte_xor u1 u3) xaa]] in
  u2 ← index rawUid 2; u4 ← index rawUid 4;
  let password := password ++ [EncodeToString [byte_xor (byte_xor u2 u4) x55]] in
  u3 ← index rawUid 3; u5 ← index rawUid 5;
  let password := password ++ [EncodeToString [byte_xor (byte_xor u3 u5) xaa]] in
  u4 ← index rawUid 4; u6 ← index rawUid 6;
  let password := password ++ [EncodeToString [byte_xor (byte_xor u4 u6) x55]] in
  Ok (Join password " ").

Section Convert.
Variable growCap : nat -> nat -> nat.

(** [for len(fileContent)%4 != 0 { fileContent = append(fileContent, 0) }] *)
Fixpoint padLoop (fuel : nat) (fileContent : slice) : result slice :=
  if slen fileContent mod 4 =? 0 then Ok fileContent
  else match fuel with
       | 0 => OutOfFuel
       | S fuel' => padLoop fuel' (append1 growCap fileContent x00)
       end.

Definition padToPages (fileContent : slice) : result slice :=
  if negb (slen fileContent mod 4 =? 0) then padLoop 3 fileContent
  else Ok fileContent.

(** [for j := 0; j < 4; j++ { page += " " + ToUpper(hex(fileContent[i+j:i+j+1])) }] *)
Fixpoint byteLoop (fuel : nat) (fileContent : slice) (i j : nat) (page : string)
  : result string :=
  if j <? 4 then
    match fuel with
    | 0 => OutOfFuel
    | S fuel' =>
        b ← subslice fileContent (i + j) (i + j + 1);
        byteLoop fuel' fileContent i (S j)
          (page +:+ (" " +:+ ToUpper (EncodeToString b)))
    end
  else Ok page.

(** [for i := 0; i < len(fileContent); i += 4 { ... }], left at 135 pages. *)
Fixpoint pageLoop (fuel : nat) (fileContent : slice) (i pageCount : nat)
    (pagesContent : list string) : result (list string * nat) :=
  if i <? slen fileContent then
    match fuel with
    | 0 => OutOfFuel
    | S fuel' =>
        let page := ("Page " +:+ FormatInt pageCount) +:+ ":" in
        page ← byteLoop 4 fileContent i 0 page;
        let pagesContent := pagesContent ++ [page] in
        let pageCount := S pageCount in
        if Ntag215PageQuantity <=? pageCount then Ok (pagesContent, pageCount)
        else pageLoop fuel' fileContent (i + 4) pageCount pagesContent
    end
  else Ok (pagesContent, pageCount).

(** [for pageCount < Ntag215PageQuantity { ... ": 00 00 00 00" ... }] *)
Fixpoint zeroLoop (fuel : nat) (pageCount : nat) (pagesContent : list string)
  : result (list string * nat) :=
  if pageCount <? Ntag215PageQuantity then
    match fuel with
    | 0 => OutOfFuel
    | S fuel' =>
        let page := ("Page " +:+ FormatInt pageCount) +:+ ": 00 00 00 00" in
        zeroLoop fuel' (S pageCount) (pagesContent ++ [page])
    end
  else Ok (pagesContent, pageCount).

(** The pages collected from the padded buffer, before pages 133 and 134
    are written. *)
Definition collectPages (fileContent : slice) : result (list string * nat) :=
  '(pagesContent, pageCount) ← pageLoop Ntag215PageQuantity fileContent 0 0 [];
  if pageCount <? Ntag215PageQuantity
  then zeroLoop Ntag215PageQuantity pageCount pagesContent
  else Ok (pagesContent, pageCount).

(** The page lines that [convertBinDataToNfcPages] joins. *)
Definition nfcPages (fileContent : slice) : result (list string) :=
  fileContent ← padToPages fileContent;
  '(pagesContent, _) ← collectPages fileContent;
  uidText ← extractUid fileContent;
  let uid := DecodeString (ReplaceAll uidText " " "") in
  password ← calculatePassword (string_of_list_byte uid);
  pagesContent ← setIndex pagesContent 133 ("Page 133: " +:+ ToUpper password);
  pagesContent ← setIndex pagesContent 134 "Page 134: 80 80 00 00";
  Ok pagesContent.

Definition convertBinDataToNfcPages (fileContent : slice) : result string :=
  pagesContent ← nfcPages fileContent;
  Ok (Join pagesContent LF).
End Convert.

Definition nfcFormat : string :=
  Join [ "Filetype: Flipper NFC device";
         "Version: 2";
         "# Nfc device type can be UID, Mifare Ultralight, Bank card";
         "Device type: NTAG215";
         "# UID, ATQA and SAK are common for all formats";
         "UID: %s";
         "ATQA: 44 00";
         "SAK: 00";
         "# Mifare Ultralight specific data";
         "Signature: 00 00 00 00 00 00 00 00 00 00 00 00 00 00 00 00 00 00 00 00 00 00 00 00 00 00 00 00 00 00 00 00";
         "Mifare version: 00 04 04 02 01 00 11 03";
         "Counter 0: 0";
         "Tearing 0: 00";
         "Counter 1: 0";
         "Tearing 1: 00";
         "Counter 2: 0";
         "Tearing 2: 00";
         "Pages total: %d";
         "%s" ] LF.

Definition createNfcFileContent (uid pages : string) : string :=
  Sprintf nfcFormat [ArgString uid; ArgInt Ntag215PageQuantity; ArgString pages].

(** ** The files and the batch loop of [main] *)

Definition error : Type := string.

Inductive event : Type :=
  | Stdout (line : string)   (* fmt.Println *)
  | Logged (line : string)   (* log.Println, and the message of log.Panicln *).

(** The part of the machine [main] acts on: the readable files and their
    contents, the paths that can be written, and what was printed so far. *)
Record world : Type := mkWorld {
  files : gmap string (list byte);
  writable : string -> bool;
  printed : list event
}.

(** [os.ReadFile] on a file holding [content]: the slice is made with
    capacity [size+1], and at least 512, and filled by reading into it, so
    the bytes behind the content are zero. *)
Definition readSlice (content : list byte) : slice :=
  mkSlice content
    (replicate (Nat.max (S (length content)) 512 - length content) x00).

Definition ReadFile (w : world) (name : string) : option slice :=
  readSlice <$> files w !! name.

(** [os.WriteFile]: the new world, and whether the write failed. A failed
    write is taken to leave the files as they were. *)
Definition WriteFile (w : world) (name : string) (content : list byte)
  : world * bool :=
  if writable w name
  then (mkWorld (<[name := content]> (files w)) (writable w) (printed w), false)
  else (w, true).

Definition emit (w : world) (e : event) : world :=
  mkWorld (files w) (writable w) (printed w ++ [e]).

Definition loadBinFile (w : world) (filename : string) : slice * option error :=
  match ReadFile w filename with
  | None => (mkSlice [] [], Some "error when loading file, check filename")
  | Some fileContent => (fileContent, None)
  end.

Definition saveNfcFile (w : world) (filename : string) (content : list byte)
  : world * option error :=
  let '(w', failed) := WriteFile w filename content in
  if failed then (w', Some "error when write nfc file") else (w', None).

Section Main.
Variable growCap : nat -> nat -> nat.
(** The values of the flags [-input] and [-output]. *)
Variables inputDir outputDir : string.

(** [createNfcFileContent(string(extractUid(fileContent)),
     convertBinDataToNfcPages(fileContent))] *)
Definition nfcContentOf (fileContent : slice) : result string :=
  uid ← extractUid fileContent;
  pages ← convertBinDataToNfcPages growCap fileContent;
  Ok (createNfcFileContent uid pages).

Definition outputPathOf (file : string) : string :=
  let outputPath := ReplaceAll file inputDir outputDir in
  ReplaceAll outputPath ".bin" ".nfc".

(** The body of [for _, file := range filesToConvert]. The files come from
    walking [inputDir], so none is listed when [inputDir] is empty.
    [os.MkdirAll] changes nothing this model records and its error is
    ignored by the program. *)
Fixpoint mainLoop (filesToConvert : list string) (w : world)
  : world * result unit :=
  match filesToConvert with
  | [] => (w, Ok tt)
  | file :: rest =>
      match loadBinFile w file with
      | (_, Some err) => (emit w (Logged err), Panic (LogPanic err))
      | (fileContent, None) =>
          match nfcContentOf fileContent with
          | Ok nfcContent =>
              let w := emit w (Stdout ("Proccess file:  " +:+ file)) in
              let outputPath := outputPathOf file in
              match saveNfcFile w outputPath (list_byte_of_string nfcContent) with
              | (w, Some err) =>
                  mainLoop rest
                    (emit w (Logged ("Error when save NfcFile  " +:+ err)))
              | (w, None) => mainLoop rest w
              end
          | Panic p => (w, Panic p)
          | OutOfFuel => (w, OutOfFuel)
          end
      end
  end.
End Main.

(** ** Finding the dumps: [getAllBinFiles] and [main] *)

(** [strings.HasSuffix]: [len(s) >= len(suffix)] and the last
    [len(suffix)] bytes of [s] are [suffix]. *)
Definition HasSuffix (s suffix : string) : bool :=
  (String.length suffix <=? String.length s)
  && String.eqb
       (substring (String.length s - String.length suffix) (String.length suffix) s)
       suffix.

(** One call of the function given to [filepath.Walk]: an entry of the
    tree with its path and whether it is a directory, or a path that could
    not be examined, with the error. *)
Inductive visit : Type :=
  | Entry (path : string) (isDir : bool)
  | Failure (path : string) (err : error).

(** The function literal of [getAllBinFiles], on the captured [files]: it
    returns the error it is given, and otherwise keeps the paths that end
    in [.bin] and are not directories. *)
Definition walkFn (files : list string) (v : visit) : list string * option error :=
  match v with
  | Failure _ err => (files, Some err)
  | Entry path isDir =>
      if HasSuffix path ".bin" && negb isDir
      then (files ++ [path], None)
      else (files, None)
  end.

(** [filepath.Walk] over the calls it makes for a tree, in its order: it
    stops at the first call that returns an error and returns that error.
    (The function of [getAllBinFiles] returns no [SkipDir], so no entry is
    skipped.) *)
Fixpoint Walk (visits : list visit) (files : list string)
  : list string * option error :=
  match visits with
  | [] => (files, None)
  | v :: rest =>
      match walkFn files v with
      | (files, Some err) => (files, Some err)
      | (files, None) => Walk rest files
      end
  end.

Definition getAllBinFiles (w : world) (visits : list visit) : world * list string :=
  match Walk visits [] with
  | (files, Some err) => (emit w (Logged err), files)
  | (files, None) => (w, files)
  end.

(** [main], for the values of the two flags and the calls the walk of
    [inputDir] makes. *)
Definition main (growCap : nat -> nat -> nat) (inputDir outputDir : string)
    (visits : list visit) (w : world) : world * result unit :=
  let '(w, filesToConvert) := getAllBinFiles w visits in
  mainLoop growCap inputDir outputDir filesToConvert w.

(** ** Reference definitions for the statements *)

(** Two uppercase hexadecimal digits for a byte. *)
Definition upperHexTable : string := "0123456789ABCDEF".

Definition upperHexDigit (n : N) : ascii :=
  match String.get (N.to_nat n) upperHexTable with
  | Some c => c
  | None => "0"%char
  end.

Definition hexPair (b : byte) : string :=
  String (upperHexDigit (Byte.to_N b / 16))
    (String (upperHexDigit (Byte.to_N b mod 16)) "").

(** The byte at index [i] of a list, zero when there is none. *)
Definition byteAt (l : list byte) (i : nat) : byte := default x00 (l !! i).

(** The NTAG215 default password of a UID. *)
Definition passwordBytes (uid : list byte) : list byte :=
  [ byte_xor (byte_xor (byteAt uid 1) (byteAt uid 3)) xaa;
    byte_xor (byte_xor (byteAt uid 2) (byteAt uid 4)) x55;
    byte_xor (byte_xor (byteAt uid 3) (byteAt uid 5)) xaa;
    byte_xor (byte_xor (byteAt uid 4) (byteAt uid 6)) x55 ].

(** The line ["Page <index>: <B0> <B1> <B2> <B3>"]. *)
Definition pageLine (index : nat) (content : list byte) : string :=
  "Page " +:+ FormatInt index +:+ ": " +:+ Join (hexPair <$> content) " ".

(** The four bytes of page [k] of a buffer. *)
Definition pageBytes (l : list byte) (k : nat) : list byte :=
  [byteAt l (4 * k); byteAt l (4 * k + 1); byteAt l (4 * k + 2); byteAt l (4 * k + 3)].

(** The seven bytes [extractUid] reads from a buffer: indices 0 to 2 and 4
    to 7 of the backing array. *)
Definition uidBytesOf (s : slice) : list byte :=
  take 3 (backing s) ++ take 4 (drop 4 (backing s)).

(** The number of 4-byte groups the page loop renders. *)
Definition renderedGroups (s : slice) : nat := Nat.min (slen s / 4) Ntag215PageQuantity.

(** The page lines before and after pages 133 and 134 are written. *)
Definition collectedLines (s : slice) : list string :=
  ((fun k => pageLine k (pageBytes (elems s) k)) <$> seq 0 (renderedGroups s))
  ++ ((fun k => pageLine k [x00; x00; x00; x00])
        <$> seq (renderedGroups s) (Ntag215PageQuantity - renderedGroups s)).

Definition finalLines (s : slice) : list string :=
  <[134 := "Page 134: 80 80 00 00"]>
    (<[133 := pageLine 133 (passwordBytes (uidBytesOf s))]> (collectedLines s)).

(** The header lines before and after the UID. *)
Definition headerBeforeUid : string :=
  Join [ "Filetype: Flipper NFC device";
         "Version: 2";
         "# Nfc device type can be UID, Mifare Ultralight, Bank card";
         "Device type: NTAG215";
         "# UID, ATQA and SAK are common for all formats";
         "UID: " ] LF.

Definition headerAfterUid : string :=
  Join [ "";
         "ATQA: 44 00";
         "SAK: 00";
         "# Mifare Ultralight specific data";
         "Signature: " +:+ Join (hexPair <$> replicate 32 x00) " ";
         "Mifare version: 00 04 04 02 01 00 11 03";
         "Counter 0: 0";
         "Tearing 0: 00";
         "Counter 1: 0";
         "Tearing 1: 00";
         "Counter 2: 0";
         "Tearing 2: 00";
         "Pages total: 135";
         "" ] LF.

(** [strings.Contains]: [sub] occurs in [s]. *)
Fixpoint Contains (s sub : string) : bool :=
  hasPrefix sub s
  || match s with
     | "" => false
     | String _ rest => Contains rest sub
     end.

(** The paths [getAllBinFiles] keeps from entries [(path, isDir)]. *)
Definition binPaths (entries : list (string * bool)) : list string :=
  fst <$> filter (fun e => HasSuffix (fst e) ".bin" && negb (snd e) = true) entries.

(** The seven UID bytes of a file: bytes 0, 1, 2, 4, 5, 6 and 7, zero
    where the file is shorter. *)
Definition fileUid (content : list byte) : list byte :=
  [byteAt content 0; byteAt content 1; byteAt content 2; byteAt content 4;
   byteAt content 5; byteAt content 6; byteAt content 7].

(** The lines [Stdout] of what was printed. *)
Definition stdoutLines (events : list event) : list string :=
  omap (fun e => match e with Stdout line => Some line | Logged _ => None end) events.

(** A sample world: two dumps to read, and an output path that cannot be
    written. *)
Definition batch_world : world :=
  mkWorld
    (<["dumps/a.bin" := [x04; xa1; xb2; x9f; xc3; xd4; xe5; xf6]]>
       (<["dumps/c.bin" := []]> ∅))
    (fun path => negb (String.eqb path "nfc/a.nfc"))
    [].

(** ** Bytes and hexadecimal text *)

Lemma to_N_byte_of_N (n : N) : (n < 256)%N -> Byte.to_N (byte_of_N n) = n.
Proof.
  intros Hn. unfold byte_of_N. rewrite N.mod_small by exact Hn.
  destruct (Byte.of_N n) as [b|] eqn:E.
  - by apply Byte.to_of_N.
  - apply Byte.of_N_None_iff in E. lia.
Qed.

Lemma to_N_lt (b : byte) : (Byte.to_N b < 256)%N.
Proof. pose proof (Byte.to_N_bounded b). lia. Qed.

Lemma to_N_inj (a b : byte) : Byte.to_N a = Byte.to_N b -> a = b.
Proof.
  intros H. apply (f_equal Byte.of_N) in H.
  rewrite !Byte.of_to_N in H. congruence.
Qed.

Lemma lxor_byte_lt (x y : N) : (x < 256)%N -> (y < 256)%N -> (N.lxor x y < 256)%N.
Proof.
  intros Hx Hy.
  destruct (N.eq_dec (N.lxor x y) 0%N) as [->|Hne]; [lia|].
  change 256%N with (2 ^ 8)%N. apply N.log2_lt_pow2; [lia|].
  pose proof (N.log2_lxor x y) as Hl.
  assert (N.log2 x < 8)%N.
  { destruct (N.eq_dec x 0%N) as [->|]; [cbn; lia|]. apply N.log2_lt_pow2; lia. }
  assert (N.log2 y < 8)%N.
  { destruct (N.eq_dec y 0%N) as [->|]; [cbn; lia|]. apply N.log2_lt_pow2; lia. }
  lia.
Qed.

Lemma to_N_byte_xor (a b : byte) :
  Byte.to_N (byte_xor a b) = N.lxor (Byte.to_N a) (Byte.to_N b).
Proof.
  unfold byte_xor. apply to_N_byte_of_N, lxor_byte_lt; apply to_N_lt.
Qed.

Lemma byte_xor_inj_l (a a' b : byte) : byte_xor a b = byte_xor a' b -> a = a'.
Proof.
  intros H. apply (f_equal Byte.to_N) in H. rewrite !to_N_byte_xor in H.
  apply to_N_inj.
  apply (f_equal (fun x => N.lxor x (Byte.to_N b))) in H.
  by rewrite !N.lxor_assoc, !N.lxor_nilpotent, !N.lxor_0_r in H.
Qed.

Lemma byte_xor_inj_r (a b b' : byte) : byte_xor a b = byte_xor a b' -> b = b'.
Proof.
  intros H. apply (f_equal Byte.to_N) in H. rewrite !to_N_byte_xor in H.
  apply to_N_inj.
  apply (f_equal (N.lxor (Byte.to_N a))) in H.
  by rewrite <- !N.lxor_assoc, !N.lxor_nilpotent, !N.lxor_0_l in H.
Qed.

(** [strings.ToUpper(hex.EncodeToString([]byte{b}))] is the uppercase pair. *)
Lemma ToUpper_Encode (b : byte) : ToUpper (EncodeToString [b]) = hexPair b.
Proof. by destruct b. Qed.

Lemma Decode_hexPair (b : byte) (rest : string) :
  DecodeString (hexPair b +:+ rest) = b :: DecodeString rest.
Proof. by destruct b. Qed.

Lemma Decode_Encode (b : byte) (rest : string) :
  DecodeString (EncodeToString [b] +:+ rest) = b :: DecodeString rest.
Proof. by destruct b. Qed.

Lemma string_app_assoc (a b c : string) : (a +:+ b) +:+ c = a +:+ (b +:+ c).
Proof.
  induction a as [|x a IH]; [done|].
  change (String x ((a +:+ b) +:+ c) = String x (a +:+ (b +:+ c))).
  by rewrite IH.
Qed.

Lemma string_app_nil_r (a : string) : a +:+ "" = a.
Proof.
  induction a as [|x a IH]; [done|].
  change (String x (a +:+ "") = String x a). by rewrite IH.
Qed.

Lemma Join_cons (e : string) (rest : list string) (sep : string) :
  rest <> [] -> Join (e :: rest) sep = e +:+ sep +:+ Join rest sep.
Proof. by destruct rest. Qed.

(** Removing the spaces of a list of hexadecimal pairs joined by spaces. *)
Lemma replace_space_hexPair (b : byte) (rest : string) :
  replaceFrom " " "" 0 (hexPair b +:+ rest) = hexPair b +:+ replaceFrom " " "" 0 rest.
Proof. by destruct b. Qed.

Lemma replace_space_Encode (b : byte) (rest : string) :
  replaceFrom " " "" 0 (EncodeToString [b] +:+ rest)
  = EncodeToString [b] +:+ replaceFrom " " "" 0 rest.
Proof. by destruct b. Qed.

Section HexText.
(** [pair] is either rendering of a byte as two hexadecimal digits. *)
Variable pair : byte -> string.
Hypothesis replace_pair : forall b rest,
  replaceFrom " " "" 0 (pair b +:+ rest) = pair b +:+ replaceFrom " " "" 0 rest.
Hypothesis decode_pair : forall b rest,
  DecodeString (pair b +:+ rest) = b :: DecodeString rest.

Lemma Decode_ReplaceAll_Join (bs : list byte) :
  DecodeString (ReplaceAll (Join (pair <$> bs) " ") " " "") = bs.
Proof.
  unfold ReplaceAll.
  induction bs as [|b bs IH]; [done|].
  destruct bs as [|b' bs].
  - cbn [fmap list_fmap Join].
    rewrite <- (string_app_nil_r (pair b)), replace_pair, decode_pair. done.
  - rewrite fmap_cons, Join_cons by done.
    rewrite replace_pair.
    change (replaceFrom " " "" 0 (" " +:+ ?s)) with (replaceFrom " " "" 0 s).
    by rewrite decode_pair, IH.
Qed.
End HexText.

Lemma Decode_uid_text (bs : list byte) :
  DecodeString (ReplaceAll (Join (hexPair <$> bs) " ") " " "") = bs.
Proof. apply Decode_ReplaceAll_Join; [apply replace_space_hexPair | apply Decode_hexPair]. Qed.

Lemma Decode_password_text (bs : list byte) :
  DecodeString (ReplaceAll (Join ((fun b => EncodeToString [b]) <$> bs) " ") " " "") = bs.
Proof.
  apply (Decode_ReplaceAll_Join (fun b => EncodeToString [b]));
    [apply replace_space_Encode | apply Decode_Encode].
Qed.

Lemma index_string_of_list_byte (l : list byte) (i : nat) (b : byte) :
  l !! i = Some b -> index (string_of_list_byte l) i = Ok b.
Proof.
  revert i. induction l as [|x l IH]; intros [|i] H; try done.
  - cbn in H. injection H as ->. unfold index. cbn.
    by rewrite byte_of_ascii_of_byte.
  - cbn in H. apply IH in H. exact H.
Qed.

(** ** Slices *)

Lemma subslice_in_cap (s : slice) (lo hi : nat) :
  lo <= hi -> hi <= scap s ->
  subslice s lo hi = Ok (take (hi - lo) (drop lo (backing s))).
Proof.
  intros H1 H2. unfold subslice.
  apply Nat.leb_le in H1, H2. by rewrite H1, H2.
Qed.

Lemma subslice_beyond_cap (s : slice) (lo hi : nat) :
  scap s < hi -> subslice s lo hi = Panic SliceBoundsOutOfRange.
Proof.
  intros H. unfold subslice.
  apply Nat.leb_gt in H. rewrite H. by rewrite andb_false_r.
Qed.

Lemma subslice_byte (s : slice) (k : nat) (b : byte) :
  elems s !! k = Some b -> subslice s k (k + 1) = Ok [b].
Proof.
  intros H. pose proof (lookup_lt_Some _ _ _ H) as Hk.
  rewrite subslice_in_cap; [|lia|unfold scap; lia].
  replace (k + 1 - k) with 1 by lia.
  assert (backing s !! k = Some b) as Hb by (unfold backing; by apply lookup_app_l_Some).
  by rewrite (drop_S _ _ _ Hb).
Qed.

Section AppendFacts.
Variable growCap : nat -> nat -> nat.

Lemma elems_append1 (s : slice) (b : byte) :
  elems (append1 growCap s b) = elems s ++ [b].
Proof. unfold append1. by destruct (spare s). Qed.

Lemma slen_append1 (s : slice) (b : byte) :
  slen (append1 growCap s b) = S (slen s).
Proof. unfold slen. rewrite elems_append1, length_app. cbn. lia. Qed.

Lemma scap_append1 (s : slice) (b : byte) :
  scap s <= scap (append1 growCap s b).
Proof.
  unfold append1, scap. destruct (spare s); cbn; rewrite length_app; cbn; lia.
Qed.

(** The padding loop ends within three rounds, on the input followed by
    the missing zero bytes. *)
Lemma padLoop_spec (fuel : nat) (s : slice) :
  (4 - slen s mod 4) mod 4 <= fuel ->
  exists s', padLoop growCap fuel s = Ok s'
    /\ elems s' = elems s ++ replicate ((4 - slen s mod 4) mod 4) x00
    /\ scap s <= scap s'.
Proof.
  revert s. induction fuel as [|fuel IH]; intros s Hfuel;
    cbn [padLoop]; destruct (slen s mod 4 =? 0) eqn:E.
  - apply Nat.eqb_eq in E. exists s.
    replace ((4 - slen s mod 4) mod 4) with 0 by lia.
    by rewrite app_nil_r.
  - apply Nat.eqb_neq in E. lia.
  - apply Nat.eqb_eq in E. exists s.
    replace ((4 - slen s mod 4) mod 4) with 0 by lia.
    by rewrite app_nil_r.
  - apply Nat.eqb_neq in E.
    destruct (IH (append1 growCap s x00)) as (s' & Hs' & He & Hc).
    { rewrite slen_append1. lia. }
    exists s'. split; [exact Hs'|]. split.
    + rewrite He, elems_append1, slen_append1, <- app_assoc. f_equal.
      replace ((4 - slen s mod 4) mod 4)
        with (S ((4 - S (slen s) mod 4) mod 4)) by lia.
      done.
    + pose proof (scap_append1 s x00). lia.
Qed.

Lemma padToPages_spec (s : slice) :
  exists s', padToPages growCap s = Ok s'
    /\ elems s' = elems s ++ replicate ((4 - slen s mod 4) mod 4) x00
    /\ scap s <= scap s'.
Proof.
  unfold padToPages. destruct (slen s mod 4 =? 0) eqn:E; cbn [negb].
  - apply Nat.eqb_eq in E. exists s.
    replace ((4 - slen s mod 4) mod 4) with 0 by lia.
    by rewrite app_nil_r.
  - apply padLoop_spec. lia.
Qed.

Lemma padToPages_aligned (s : slice) :
  slen s mod 4 = 0 -> padToPages growCap s = Ok s.
Proof. intros E. unfold padToPages. by rewrite E. Qed.

Lemma padded_slen (s s' : slice) :
  padToPages growCap s = Ok s' ->
  slen s' mod 4 = 0 /\ slen s <= slen s' /\ slen s' < slen s + 4.
Proof.
  intros H. destruct (padToPages_spec s) as (s'' & H' & He & _).
  rewrite H in H'. injection H' as <-.
  unfold slen in *. rewrite He, length_app, length_replicate.
  lia.
Qed.
End AppendFacts.

(** ** The page loops *)

Lemma byteAt_lookup (l : list byte) (i : nat) :
  i < length l -> l !! i = Some (byteAt l i).
Proof.
  intros H. unfold byteAt. destruct (lookup_lt_is_Some_2 l i H) as [b ->]. done.
Qed.

(** One round of the page loop renders the four bytes of the group. *)
Lemma byteLoop_group (s : slice) (k : nat) :
  4 * k + 4 <= slen s ->
  byteLoop 4 s (4 * k) 0 (("Page " +:+ FormatInt k) +:+ ":")
  = Ok (pageLine k (pageBytes (elems s) k)).
Proof.
  intros H. unfold slen in H. cbn [byteLoop Nat.ltb Nat.leb].
  rewrite Nat.add_0_r.
  rewrite (subslice_byte s (4 * k) (byteAt (elems s) (4 * k))),
    (subslice_byte s (4 * k + 1) (byteAt (elems s) (4 * k + 1))),
    (subslice_byte s (4 * k + 2) (byteAt (elems s) (4 * k + 2))),
    (subslice_byte s (4 * k + 3) (byteAt (elems s) (4 * k + 3)))
    by (apply byteAt_lookup; lia).
  cbn [mbind result_bind].
  rewrite !ToUpper_Encode. unfold pageLine, pageBytes.
  rewrite !string_app_assoc. done.
Qed.

Lemma pageLoop_spec (s : slice) (fuel pageCount : nat) (pagesContent : list string) :
  slen s mod 4 = 0 ->
  pageCount < Ntag215PageQuantity ->
  pageCount <= renderedGroups s ->
  renderedGroups s - pageCount <= fuel ->
  pageLoop fuel s (4 * pageCount) pageCount pagesContent
  = Ok (pagesContent
          ++ ((fun k => pageLine k (pageBytes (elems s) k))
                <$> seq pageCount (renderedGroups s - pageCount)),
        renderedGroups s).
Proof.
  unfold renderedGroups, Ntag215PageQuantity. intros Hal.
  revert pageCount pagesContent.
  induction fuel as [|fuel IH]; intros pc acc Hpc Hle Hfuel;
    cbn [pageLoop]; destruct (4 * pc <? slen s) eqn:E.
  - apply Nat.ltb_lt in E. lia.
  - apply Nat.ltb_ge in E.
    replace (_ - pc) with 0 by lia. cbn [seq fmap list_fmap].
    rewrite app_nil_r. do 2 f_equal. lia.
  - apply Nat.ltb_lt in E.
    rewrite byteLoop_group by lia. cbn [mbind result_bind].
    unfold Ntag215PageQuantity.
    destruct (135 <=? S pc) eqn:E'.
    + apply Nat.leb_le in E'.
      replace (_ - pc) with 1 by lia. cbn [seq fmap list_fmap].
      do 2 f_equal. lia.
    + apply Nat.leb_gt in E'.
      replace (4 * pc + 4) with (4 * S pc) by lia.
      rewrite IH by lia. rewrite <- app_assoc. do 3 f_equal.
      replace (Nat.min (slen s / 4) 135 - pc)
        with (S (Nat.min (slen s / 4) 135 - S pc)) by lia.
      done.
  - apply Nat.ltb_ge in E.
    replace (_ - pc) with 0 by lia. cbn [seq fmap list_fmap].
    rewrite app_nil_r. do 2 f_equal. lia.
Qed.

Lemma zeroLoop_spec (fuel pageCount : nat) (pagesContent : list string) :
  pageCount <= Ntag215PageQuantity ->
  Ntag215PageQuantity - pageCount <= fuel ->
  zeroLoop fuel pageCount pagesContent
  = Ok (pagesContent
          ++ ((fun k => pageLine k [x00; x00; x00; x00])
                <$> seq pageCount (Ntag215PageQuantity - pageCount)),
        Ntag215PageQuantity).
Proof.
  unfold Ntag215PageQuantity. revert pageCount pagesContent.
  induction fuel as [|fuel IH]; intros pc acc Hpc Hfuel;
    cbn [zeroLoop]; unfold Ntag215PageQuantity;
    destruct (pc <? 135) eqn:E.
  - apply Nat.ltb_lt in E. lia.
  - apply Nat.ltb_ge in E. replace (135 - pc) with 0 by lia.
    cbn [seq fmap list_fmap]. rewrite app_nil_r. do 2 f_equal. lia.
  - apply Nat.ltb_lt in E. rewrite IH by lia.
    rewrite <- app_assoc. do 2 f_equal.
    replace (135 - pc) with (S (135 - S pc)) by lia.
    reflexivity.
  - apply Nat.ltb_ge in E. replace (135 - pc) with 0 by lia.
    cbn [seq fmap list_fmap]. rewrite app_nil_r. do 2 f_equal. lia.
Qed.

Lemma collectPages_spec (s : slice) :
  slen s mod 4 = 0 ->
  collectPages s = Ok (collectedLines s, Ntag215PageQuantity).
Proof.
  intros Hal. unfold collectPages.
  pose proof (pageLoop_spec s Ntag215PageQuantity 0 [] Hal) as H.
  rewrite Nat.mul_0_r in H. rewrite H; clear H;
    [|unfold Ntag215PageQuantity; lia|lia|unfold renderedGroups; lia].
  cbn [mbind result_bind app]. rewrite Nat.sub_0_r.
  destruct (renderedGroups s <? Ntag215PageQuantity) eqn:E.
  - rewrite zeroLoop_spec; [done|unfold renderedGroups; lia|lia].
  - apply Nat.ltb_ge in E. unfold collectedLines.
    replace (Ntag215PageQuantity - renderedGroups s) with 0 by lia.
    cbn [seq fmap list_fmap]. rewrite app_nil_r. do 2 f_equal.
    unfold renderedGroups in *. lia.
Qed.

Lemma length_collectedLines (s : slice) : length (collectedLines s) = 135.
Proof.
  unfold collectedLines. rewrite length_app, !length_fmap, !length_seq.
  unfold renderedGroups, Ntag215PageQuantity. lia.
Qed.

(** ** UID, password and the final pages *)

Lemma length_uidBytesOf (s : slice) : 8 <= scap s -> length (uidBytesOf s) = 7.
Proof.
  intros H. unfold uidBytesOf.
  assert (length (backing s) = scap s) as Hb by (unfold backing, scap; apply length_app).
  rewrite length_app, !length_take, length_drop. lia.
Qed.

Lemma extractUid_in_cap (s : slice) :
  8 <= scap s -> extractUid s = Ok (Join (hexPair <$> uidBytesOf s) " ").
Proof.
  intros H. unfold extractUid.
  rewrite !subslice_in_cap by lia. cbn [mbind result_bind].
  unfold uidBytesOf. do 2 f_equal.
  apply list_fmap_ext. intros _ b _. apply ToUpper_Encode.
Qed.

Lemma extractUid_beyond_cap (s : slice) :
  scap s < 8 -> extractUid s = Panic SliceBoundsOutOfRange.
Proof.
  intros H. unfold extractUid.
  rewrite (subslice_beyond_cap s 4 8) by lia.
  unfold subslice at 1. by destruct (_ && _).
Qed.

Lemma calculatePassword_bytes (uid : list byte) :
  length uid = 7 ->
  calculatePassword (string_of_list_byte uid)
  = Ok (Join ((fun b => EncodeToString [b]) <$> passwordBytes uid) " ").
Proof.
  intros H.
  destruct uid as [|u0 [|u1 [|u2 [|u3 [|u4 [|u5 [|u6 [|]]]]]]]]; try done.
  unfold calculatePassword.
  rewrite (index_string_of_list_byte _ 1 u1), (index_string_of_list_byte _ 2 u2),
    (index_string_of_list_byte _ 3 u3), (index_string_of_list_byte _ 4 u4),
    (index_string_of_list_byte _ 5 u5), (index_string_of_list_byte _ 6 u6) by done.
  reflexivity.
Qed.

Lemma ToUpper_app (a b : string) : ToUpper (a +:+ b) = ToUpper a +:+ ToUpper b.
Proof.
  induction a as [|c a IH]; [done|].
  change (String (upperChar c) (ToUpper (a +:+ b))
          = String (upperChar c) (ToUpper a +:+ ToUpper b)).
  by rewrite IH.
Qed.

Lemma ToUpper_hex_text (bs : list byte) :
  ToUpper (Join ((fun b => EncodeToString [b]) <$> bs) " ")
  = Join (hexPair <$> bs) " ".
Proof.
  induction bs as [|b bs IH]; [done|].
  destruct bs as [|b' bs]; [apply ToUpper_Encode|].
  rewrite !fmap_cons, !Join_cons by done.
  rewrite !fmap_cons in IH. by rewrite !ToUpper_app, IH, ToUpper_Encode.
Qed.

Section ConvertFacts.
Variable growCap : nat -> nat -> nat.

(** With a capacity of 8 or more after padding, the conversion returns
    the collected pages with pages 133 and 134 written. *)
Lemma nfcPages_in_cap (s s' : slice) :
  padToPages growCap s = Ok s' -> 8 <= scap s' ->
  nfcPages growCap s = Ok (finalLines s').
Proof.
  intros Hpad Hcap. unfold nfcPages. rewrite Hpad. cbn [mbind result_bind].
  destruct (padded_slen growCap s s' Hpad) as (Hal & _).
  rewrite collectPages_spec by exact Hal. cbn [mbind result_bind].
  rewrite extractUid_in_cap by exact Hcap. cbn [mbind result_bind].
  rewrite Decode_uid_text.
  rewrite calculatePassword_bytes by (by apply length_uidBytesOf).
  cbn [mbind result_bind]. rewrite ToUpper_hex_text.
  unfold setIndex. rewrite length_collectedLines. cbn [Nat.ltb Nat.leb].
  cbn [mbind result_bind]. rewrite length_insert, length_collectedLines.
  cbn [Nat.ltb Nat.leb]. reflexivity.
Qed.

(** With less, [extractUid] panics on its slice expressions. *)
Lemma nfcPages_beyond_cap (s s' : slice) :
  padToPages growCap s = Ok s' -> scap s' < 8 ->
  nfcPages growCap s = Panic SliceBoundsOutOfRange.
Proof.
  intros Hpad Hcap. unfold nfcPages. rewrite Hpad. cbn [mbind result_bind].
  destruct (padded_slen growCap s s' Hpad) as (Hal & _).
  rewrite collectPages_spec by exact Hal. cbn [mbind result_bind].
  by rewrite extractUid_beyond_cap.
Qed.

Lemma length_finalLines (s : slice) : length (finalLines s) = 135.
Proof. unfold finalLines. by rewrite !length_insert, length_collectedLines. Qed.
End ConvertFacts.

(** ** Reading the page lines by index *)

Lemma collectedLines_lookup (s : slice) (i : nat) :
  i < 135 ->
  collectedLines s !! i
  = Some (if i <? slen s / 4
          then pageLine i (pageBytes (elems s) i)
          else pageLine i [x00; x00; x00; x00]).
Proof.
  intros Hi. unfold collectedLines.
  assert (renderedGroups s <= 135) as Hm
    by (unfold renderedGroups, Ntag215PageQuantity; lia).
  destruct (i <? slen s / 4) eqn:E.
  - apply Nat.ltb_lt in E.
    assert (i < renderedGroups s)
      by (unfold renderedGroups, Ntag215PageQuantity; lia).
    rewrite lookup_app_l by (by rewrite length_fmap, length_seq).
    rewrite list_lookup_fmap, lookup_seq_lt by done. done.
  - apply Nat.ltb_ge in E.
    assert (renderedGroups s = slen s / 4) as Hg
      by (unfold renderedGroups, Ntag215PageQuantity; lia).
    rewrite lookup_app_r by (rewrite length_fmap, length_seq; lia).
    rewrite length_fmap, length_seq, list_lookup_fmap.
    rewrite lookup_seq_lt by (unfold Ntag215PageQuantity; lia).
    cbn [fmap option_fmap option_map]. do 2 f_equal. lia.
Qed.

Lemma finalLines_lookup_body (s : slice) (i : nat) :
  i < 133 -> finalLines s !! i = collectedLines s !! i.
Proof.
  intros Hi. unfold finalLines.
  by rewrite !list_lookup_insert_ne by lia.
Qed.

Lemma finalLines_lookup_133 (s : slice) :
  finalLines s !! 133 = Some (pageLine 133 (passwordBytes (uidBytesOf s))).
Proof.
  unfold finalLines. rewrite list_lookup_insert_ne by lia.
  apply list_lookup_insert_eq. rewrite length_collectedLines. lia.
Qed.

Lemma finalLines_lookup_134 (s : slice) :
  finalLines s !! 134 = Some "Page 134: 80 80 00 00".
Proof.
  unfold finalLines. apply list_lookup_insert_eq.
  rewrite length_insert, length_collectedLines. lia.
Qed.

(** A zero page is the page of bytes that are not there. *)
Lemma pageBytes_beyond (l : list byte) (k : nat) :
  length l <= 4 * k -> pageBytes l k = [x00; x00; x00; x00].
Proof.
  intros H. unfold pageBytes, byteAt.
  by rewrite !lookup_ge_None_2 by lia.
Qed.

Section Outcome.
Variable growCap : nat -> nat -> nat.

(** The conversion either returns the final lines of the padded buffer
    or panics on a slice expression; it never runs out of fuel. *)
Lemma nfcPages_outcome (s : slice) :
  exists s', padToPages growCap s = Ok s'
    /\ elems s' = elems s ++ replicate ((4 - slen s mod 4) mod 4) x00
    /\ scap s <= scap s'
    /\ ((8 <= scap s' /\ nfcPages growCap s = Ok (finalLines s'))
        \/ (scap s' < 8 /\ nfcPages growCap s = Panic SliceBoundsOutOfRange)).
Proof.
  destruct (padToPages_spec growCap s) as (s' & Hpad & He & Hc).
  exists s'. repeat split; try done.
  destruct (le_lt_dec 8 (scap s')) as [H|H].
  - left. split; [done|]. by apply (nfcPages_in_cap growCap s s').
  - right. split; [done|]. by apply (nfcPages_beyond_cap growCap s s').
Qed.

Lemma convert_Ok_inv (s : slice) (out : string) :
  convertBinDataToNfcPages growCap s = Ok out ->
  exists s', padToPages growCap s = Ok s'
    /\ elems s' = elems s ++ replicate ((4 - slen s mod 4) mod 4) x00
    /\ 8 <= scap s'
    /\ nfcPages growCap s = Ok (finalLines s')
    /\ out = Join (finalLines s') LF.
Proof.
  intros H. unfold convertBinDataToNfcPages in H.
  destruct (nfcPages_outcome s) as (s' & Hpad & He & _ & [[Hc Hn]|[Hc Hn]]);
    rewrite Hn in H; cbn in H; [|done].
  exists s'. injection H as <-. done.
Qed.

(** What [os.ReadFile] returns is always converted. *)
Lemma nfcContentOf_readSlice (content : list byte) :
  exists uid pages,
    extractUid (readSlice content) = Ok uid
    /\ convertBinDataToNfcPages growCap (readSlice content) = Ok pages
    /\ nfcContentOf growCap (readSlice content) = Ok (createNfcFileContent uid pages).
Proof.
  assert (8 <= scap (readSlice content)) as Hcap.
  { unfold scap, readSlice. cbn [elems spare]. rewrite length_replicate. lia. }
  destruct (nfcPages_outcome (readSlice content))
    as (s' & Hpad & He & Hc & [[_ Hn]|[Hlt _]]); [|lia].
  eexists _, _. unfold nfcContentOf, convertBinDataToNfcPages.
  rewrite extractUid_in_cap by done. rewrite Hn. done.
Qed.
End Outcome.

(** ** The password calculator *)

Lemma Ok_inj {A : Type} (a b : A) : Ok a = Ok b -> a = b.
Proof. congruence. Qed.

(** C2: for a 7-byte UID, [calculatePassword] returns four bytes, as
    lowercase hexadecimal pairs separated by spaces, whose values are
    [uid[1]^uid[3]^0xAA], [uid[2]^uid[4]^0x55], [uid[3]^uid[5]^0xAA] and
    [uid[4]^uid[6]^0x55]. *)
Theorem calculatePassword_formula (uid : list byte) :
  length uid = 7 ->
  exists pwd : list byte,
    calculatePassword (string_of_list_byte uid)
    = Ok (Join ((fun b => EncodeToString [b]) <$> pwd) " ")
    /\ Byte.to_N <$> pwd
       = [ N.lxor (N.lxor (Byte.to_N (byteAt uid 1)) (Byte.to_N (byteAt uid 3))) 0xAA;
           N.lxor (N.lxor (Byte.to_N (byteAt uid 2)) (Byte.to_N (byteAt uid 4))) 0x55;
           N.lxor (N.lxor (Byte.to_N (byteAt uid 3)) (Byte.to_N (byteAt uid 5))) 0xAA;
           N.lxor (N.lxor (Byte.to_N (byteAt uid 4)) (Byte.to_N (byteAt uid 6))) 0x55 ]%N
    /\ DecodeString
         (ReplaceAll (Join ((fun b => EncodeToString [b]) <$> pwd) " ") " " "")
       = pwd.
Proof.
  intros H. exists (passwordBytes uid). split; [by apply calculatePassword_bytes|].
  split; [|apply Decode_password_text].
  unfold passwordBytes. cbn [fmap list_fmap]. by rewrite !to_N_byte_xor.
Qed.

Lemma calculatePassword_formula_witness :
  length [x04; x12; x34; x56; x78; x9a; xbc] = 7
  /\ exists pwd : list byte,
       calculatePassword (string_of_list_byte [x04; x12; x34; x56; x78; x9a; xbc])
       = Ok (Join ((fun b => EncodeToString [b]) <$> pwd) " ")
       /\ Byte.to_N <$> pwd = [0xEE; 0x19; 0x66; 0x91]%N
       /\ DecodeString
            (ReplaceAll (Join ((fun b => EncodeToString [b]) <$> pwd) " ") " " "")
          = pwd.
Proof.
  split; [reflexivity|].
  exact (calculatePassword_formula [x04; x12; x34; x56; x78; x9a; xbc] eq_refl).
Defined.

Example calculatePassword_sample :
  calculatePassword (string_of_list_byte [x04; x12; x34; x56; x78; x9a; xbc])
  = Ok "ee 19 66 91".
Proof. reflexivity. Qed.

Lemma passwordBytes_insert_differs (uid : list byte) (i : nat) (b' : byte) :
  length uid = 7 -> 1 <= i <= 6 -> uid !! i <> Some b' ->
  exists k, k < 4 /\ passwordBytes (<[i := b']> uid) !! k <> passwordBytes uid !! k.
Proof.
  intros Hlen Hi Hne.
  destruct uid as [|u0 [|u1 [|u2 [|u3 [|u4 [|u5 [|u6 [|]]]]]]]]; try done.
  assert (i = 1 \/ i = 2 \/ i = 3 \/ i = 4 \/ i = 5 \/ i = 6)
    as [->|[->|[->|[->|[->| ->]]]]] by lia;
    cbn in Hne; unfold passwordBytes, byteAt; cbn [list_insert insert lookup list_lookup default].
  - exists 0. split; [lia|]. cbn. intros [= E].
    apply byte_xor_inj_l, byte_xor_inj_l in E. congruence.
  - exists 1. split; [lia|]. cbn. intros [= E].
    apply byte_xor_inj_l, byte_xor_inj_l in E. congruence.
  - exists 0. split; [lia|]. cbn. intros [= E].
    apply byte_xor_inj_l, byte_xor_inj_r in E. congruence.
  - exists 1. split; [lia|]. cbn. intros [= E].
    apply byte_xor_inj_l, byte_xor_inj_r in E. congruence.
  - exists 2. split; [lia|]. cbn. intros [= E].
    apply byte_xor_inj_l, byte_xor_inj_r in E. congruence.
  - exists 3. split; [lia|]. cbn. intros [= E].
    apply byte_xor_inj_l, byte_xor_inj_r in E. congruence.
Qed.

(** C9: the password is a function of the UID, and replacing one of the
    bytes 1 to 6 of a 7-byte UID by a different byte changes at least one
    of the four password bytes, hence the returned text. *)
Theorem calculatePassword_sensitive (uid : list byte) (i : nat) (b' : byte) :
  length uid = 7 -> 1 <= i <= 6 -> uid !! i <> Some b' ->
  (forall rawUid rawUid' : string,
      rawUid = rawUid' -> calculatePassword rawUid = calculatePassword rawUid')
  /\ exists pwd pwd' : list byte,
       calculatePassword (string_of_list_byte uid)
       = Ok (Join ((fun b => EncodeToString [b]) <$> pwd) " ")
       /\ calculatePassword (string_of_list_byte (<[i := b']> uid))
          = Ok (Join ((fun b => EncodeToString [b]) <$> pwd') " ")
       /\ length pwd = 4 /\ length pwd' = 4
       /\ (exists k, k < 4 /\ pwd' !! k <> pwd !! k)
       /\ calculatePassword (string_of_list_byte (<[i := b']> uid))
          <> calculatePassword (string_of_list_byte uid).
Proof.
  intros Hlen Hi Hne. split; [by intros ? ? ->|].
  exists (passwordBytes uid), (passwordBytes (<[i := b']> uid)).
  assert (length (<[i := b']> uid) = 7) as Hlen' by (by rewrite length_insert).
  destruct (passwordBytes_insert_differs uid i b' Hlen Hi Hne) as (k & Hk & Hdiff).
  rewrite !calculatePassword_bytes by done.
  repeat split; try done; [by exists k|].
  intros E. apply Ok_inj in E. apply Hdiff.
  apply (f_equal (fun t => DecodeString (ReplaceAll t " " ""))) in E.
  rewrite !Decode_password_text in E. by rewrite E.
Qed.

Lemma calculatePassword_sensitive_witness :
  calculatePassword (string_of_list_byte (<[3 := xff]> [x04; x12; x34; x56; x78; x9a; xbc]))
  <> calculatePassword (string_of_list_byte [x04; x12; x34; x56; x78; x9a; xbc]).
Proof.
  destruct (calculatePassword_sensitive [x04; x12; x34; x56; x78; x9a; xbc] 3 xff)
    as [_ (pwd & pwd' & _ & _ & _ & _ & _ & H)];
    [reflexivity|lia|discriminate|exact H].
Defined.

(** ** The UID extractor *)

(** C3: on a buffer of at least 8 bytes [extractUid] returns bytes 0, 1, 2,
    4, 5, 6 and 7 (byte 3 is dropped), each as two uppercase hexadecimal
    digits, separated by single spaces. *)
Theorem extractUid_drops_byte_3 (s : slice) :
  8 <= slen s ->
  exists a0 a1 a2 a3 a4 a5 a6 a7 : byte,
    take 8 (elems s) = [a0; a1; a2; a3; a4; a5; a6; a7]
    /\ extractUid s
       = Ok (hexPair a0 +:+ " " +:+ hexPair a1 +:+ " " +:+ hexPair a2 +:+ " "
             +:+ hexPair a4 +:+ " " +:+ hexPair a5 +:+ " " +:+ hexPair a6 +:+ " "
             +:+ hexPair a7)
    /\ forall text, extractUid s = Ok text ->
         String.length text = 20
         /\ DecodeString (ReplaceAll text " " "") = [a0; a1; a2; a4; a5; a6; a7].
Proof.
  intros H. destruct s as [l sp]. unfold slen in H. cbn [elems] in H.
  destruct l as [|a0 [|a1 [|a2 [|a3 [|a4 [|a5 [|a6 [|a7 rest]]]]]]]];
    cbn [length] in H; try lia.
  exists a0, a1, a2, a3, a4, a5, a6, a7. split; [done|].
  assert (extractUid (mkSlice (a0 :: a1 :: a2 :: a3 :: a4 :: a5 :: a6 :: a7 :: rest) sp)
          = Ok (Join (hexPair <$> [a0; a1; a2; a4; a5; a6; a7]) " ")) as E.
  { rewrite extractUid_in_cap; [done|]. unfold scap. cbn [elems length]. lia. }
  split; [exact E|]. intros text Ht. rewrite E in Ht. apply Ok_inj in Ht. subst text.
  split; [done|]. apply Decode_uid_text.
Qed.

Lemma extractUid_drops_byte_3_witness :
  extractUid (mkSlice [x04; xa1; xb2; x9f; xc3; xd4; xe5; xf6; x00; x48] [])
  = Ok "04 A1 B2 C3 D4 E5 F6".
Proof.
  destruct (extractUid_drops_byte_3
              (mkSlice [x04; xa1; xb2; x9f; xc3; xd4; xe5; xf6; x00; x48] []))
    as (a0 & a1 & a2 & a3 & a4 & a5 & a6 & a7 & Ht & E & _).
  - unfold slen. cbn. lia.
  - injection Ht as <- <- <- <- <- <- <- <-. exact E.
Defined.


(** ** The document assembler *)

Lemma createNfcFileContent_parts (uid pages : string) :
  createNfcFileContent uid pages
  = headerBeforeUid +:+ uid +:+ headerAfterUid +:+ pages.
Proof.
  transitivity (headerBeforeUid +:+ uid +:+ headerAfterUid +:+ (pages +:+ ""));
    [|by rewrite string_app_nil_r].
  vm_compute. reflexivity.
Qed.

(** C7: the document is a fixed header in which only the UID line depends
    on the input, followed by the page listing; the other header lines are
    the constants of the format, with ["Pages total: 135"]. *)
Theorem createNfcFileContent_header :
  (forall uid pages : string,
     createNfcFileContent uid pages
     = Join [ "Filetype: Flipper NFC device";
              "Version: 2";
              "# Nfc device type can be UID, Mifare Ultralight, Bank card";
              "Device type: NTAG215";
              "# UID, ATQA and SAK are common for all formats";
              "UID: " +:+ uid;
              "ATQA: 44 00";
              "SAK: 00";
              "# Mifare Ultralight specific data";
              "Signature: " +:+ Join (hexPair <$> replicate 32 x00) " ";
              "Mifare version: 00 04 04 02 01 00 11 03";
              "Counter 0: 0";
              "Tearing 0: 00";
              "Counter 1: 0";
              "Tearing 1: 00";
              "Counter 2: 0";
              "Tearing 2: 00";
              "Pages total: 135";
              pages ] LF)
  /\ exists before after : string,
       forall uid pages : string,
         createNfcFileContent uid pages = before +:+ uid +:+ after +:+ pages.
Proof.
  split.
  - intros uid pages. rewrite createNfcFileContent_parts.
    vm_compute. reflexivity.
  - exists headerBeforeUid, headerAfterUid. apply createNfcFileContent_parts.
Qed.

(** ** The page renderer *)

Lemma uid_bytes_at (l : list byte) :
  8 <= length l ->
  take 3 l ++ take 4 (drop 4 l)
  = [byteAt l 0; byteAt l 1; byteAt l 2; byteAt l 4; byteAt l 5; byteAt l 6; byteAt l 7].
Proof.
  intros H.
  destruct l as [|a0 [|a1 [|a2 [|a3 [|a4 [|a5 [|a6 [|a7 rest]]]]]]]];
    cbn [length] in H; try lia.
  reflexivity.
Qed.

Lemma byteAt_app_l (l k : list byte) (i : nat) :
  i < length l -> byteAt (l ++ k) i = byteAt l i.
Proof. intros H. unfold byteAt. by rewrite lookup_app_l. Qed.

(** The UID bytes of a buffer that holds 8 bytes or more are its own. *)
Lemma uidBytesOf_elems (s : slice) :
  8 <= slen s ->
  uidBytesOf s
  = [byteAt (elems s) 0; byteAt (elems s) 1; byteAt (elems s) 2; byteAt (elems s) 4;
     byteAt (elems s) 5; byteAt (elems s) 6; byteAt (elems s) 7].
Proof.
  intros H. unfold slen in H. unfold uidBytesOf, backing.
  rewrite uid_bytes_at by (rewrite length_app; lia).
  by rewrite !byteAt_app_l by lia.
Qed.

(** C4: whenever the conversion returns, line 133 is the password of the
    UID read from the padded buffer, in uppercase hexadecimal, and line 134
    is ["Page 134: 80 80 00 00"], whatever the dump holds at those pages. *)
Theorem trailer_pages_overwritten (growCap : nat -> nat -> nat) (s : slice) (out : string) :
  convertBinDataToNfcPages growCap s = Ok out ->
  exists (s' : slice) (lines : list string),
    padToPages growCap s = Ok s'
    /\ out = Join lines LF
    /\ length lines = 135
    /\ extractUid s' = Ok (Join (hexPair <$> uidBytesOf s') " ")
    /\ lines !! 133
       = Some ("Page 133: " +:+ Join (hexPair <$> passwordBytes (uidBytesOf s')) " ")
    /\ lines !! 134 = Some "Page 134: 80 80 00 00"
    /\ (8 <= slen s ->
        uidBytesOf s'
        = [byteAt (elems s) 0; byteAt (elems s) 1; byteAt (elems s) 2;
           byteAt (elems s) 4; byteAt (elems s) 5; byteAt (elems s) 6;
           byteAt (elems s) 7]).
Proof.
  intros H. destruct (convert_Ok_inv growCap s out H) as (s' & Hpad & He & Hc & Hn & ->).
  exists s', (finalLines s'). split; [done|]. split; [done|].
  split; [apply length_finalLines|]. split; [by apply extractUid_in_cap|].
  split; [apply finalLines_lookup_133|]. split; [apply finalLines_lookup_134|].
  intros H8. rewrite uidBytesOf_elems by (unfold slen; rewrite He, length_app; unfold slen in H8; lia).
  unfold slen in H8. by rewrite He, !byteAt_app_l by lia.
Qed.

Lemma trailer_pages_overwritten_witness :
  exists (s' : slice) (lines : list string),
    padToPages (fun _ n => n) (mkSlice (replicate 540 xff) []) = Ok s'
    /\ Join (finalLines (mkSlice (replicate 540 xff) [])) LF = Join lines LF
    /\ length lines = 135
    /\ extractUid s' = Ok (Join (hexPair <$> uidBytesOf s') " ")
    /\ lines !! 133
       = Some ("Page 133: " +:+ Join (hexPair <$> passwordBytes (uidBytesOf s')) " ")
    /\ lines !! 134 = Some "Page 134: 80 80 00 00"
    /\ (8 <= slen (mkSlice (replicate 540 xff) []) ->
        uidBytesOf s'
        = [byteAt (replicate 540 xff) 0; byteAt (replicate 540 xff) 1;
           byteAt (replicate 540 xff) 2; byteAt (replicate 540 xff) 4;
           byteAt (replicate 540 xff) 5; byteAt (replicate 540 xff) 6;
           byteAt (replicate 540 xff) 7]).
Proof.
  apply (trailer_pages_overwritten (fun _ n => n) (mkSlice (replicate 540 xff) [])).
  unfold convertBinDataToNfcPages.
  rewrite (nfcPages_in_cap _ _ (mkSlice (replicate 540 xff) [])).
  - reflexivity.
  - reflexivity.
  - vm_compute. lia.
Defined.

Example trailer_pages_sample :
  match nfcPages (fun _ n => n) (mkSlice (replicate 540 xff) []) with
  | Ok lines => (lines !! 132, lines !! 133, lines !! 134)
  | _ => (None, None, None)
  end
  = (Some "Page 132: FF FF FF FF", Some "Page 133: AA 55 AA 55",
     Some "Page 134: 80 80 00 00").
Proof. vm_compute. reflexivity. Qed.

(** Lines of two buffers of 540 bytes or more that agree on their first
    540 bytes. *)
Lemma finalLines_first_540 (s1 s2 : slice) :
  540 <= slen s1 -> 540 <= slen s2 ->
  take 540 (elems s1) = take 540 (elems s2) ->
  finalLines s1 = finalLines s2.
Proof.
  intros H1 H2 Ht.
  assert (forall j, j < 540 -> byteAt (elems s1) j = byteAt (elems s2) j) as Hb.
  { intros j Hj. unfold byteAt.
    rewrite <- (lookup_take_lt (elems s1) 540 j), <- (lookup_take_lt (elems s2) 540 j) by done.
    by rewrite Ht. }
  unfold finalLines. f_equal. f_equal.
  - by rewrite !uidBytesOf_elems, !Hb by lia.
  - unfold collectedLines.
    replace (renderedGroups s1) with 135
      by (unfold renderedGroups, Ntag215PageQuantity; lia).
    replace (renderedGroups s2) with 135
      by (unfold renderedGroups, Ntag215PageQuantity; lia).
    f_equal. apply list_fmap_ext. intros i k Hk.
    apply lookup_seq in Hk as [-> Hi]. unfold pageBytes.
    by rewrite !Hb by lia.
Qed.

(** C5: whenever the conversion returns, it returns 135 lines numbered 0
    to 134. Before pages 133 and 134 are written, line [i] is the [i]-th
    group of 4 bytes of the padded input when there is one, and the zero
    page otherwise; groups from the 136th on are not read, so bytes from
    offset 540 on do not change the result. *)
Theorem page_listing (growCap : nat -> nat -> nat) (s : slice) (out : string) :
  convertBinDataToNfcPages growCap s = Ok out ->
  exists (s' : slice) (collected lines : list string),
    padToPages growCap s = Ok s'
    /\ elems s' = elems s ++ replicate ((4 - slen s mod 4) mod 4) x00
    /\ collectPages s' = Ok (collected, 135)
    /\ length collected = 135
    /\ (forall i, i < 135 ->
          collected !! i
          = Some (if i <? slen s' / 4
                  then pageLine i (pageBytes (elems s') i)
                  else "Page " +:+ FormatInt i +:+ ": 00 00 00 00"))
    /\ out = Join lines LF
    /\ length lines = 135
    /\ (forall i, i < 133 -> lines !! i = collected !! i)
    /\ (forall i, i < 135 ->
          exists content, lines !! i = Some ("Page " +:+ FormatInt i +:+ ": " +:+ content))
    /\ (forall t : slice,
          540 <= slen s -> 540 <= slen t ->
          take 540 (elems t) = take 540 (elems s) ->
          convertBinDataToNfcPages growCap t = Ok out).
Proof.
  intros H. destruct (convert_Ok_inv growCap s out H) as (s' & Hpad & He & Hc & Hn & ->).
  destruct (padded_slen growCap s s' Hpad) as (Hal & Hge & Hlt).
  exists s', (collectedLines s'), (finalLines s').
  split; [done|]. split; [done|].
  split; [by apply collectPages_spec|]. split; [apply length_collectedLines|].
  split; [intros i Hi; by rewrite collectedLines_lookup|].
  split; [done|]. split; [apply length_finalLines|].
  split; [apply finalLines_lookup_body|]. split.
  - intros i Hi.
    destruct (decide (i = 134)) as [->|H134];
      [exists "80 80 00 00"; apply finalLines_lookup_134|].
    destruct (decide (i = 133)) as [->|H133];
      [eexists; apply finalLines_lookup_133|].
    rewrite finalLines_lookup_body, collectedLines_lookup by lia.
    destruct (i <? slen s' / 4); eexists; reflexivity.
  - intros t Hs Ht Htake.
    destruct (nfcPages_outcome growCap t) as (t' & Hpt & Het & _ & [[_ Hnt]|[Hct _]]).
    + unfold convertBinDataToNfcPages. rewrite Hnt. cbn [mbind result_bind].
      do 2 f_equal. apply finalLines_first_540.
      * unfold slen in *. rewrite Het, length_app. lia.
      * lia.
      * unfold slen in *. rewrite Het, He, !take_app_le by lia. done.
    + unfold scap, slen in *. rewrite Het, length_app in Hct. lia.
Qed.

Lemma page_listing_witness :
  exists (s' : slice) (collected lines : list string),
    padToPages (fun _ n => n) (mkSlice [x01; x02; x03; x04; x05; x06; x07; x08; x09] [])
    = Ok s'
    /\ elems s' = [x01; x02; x03; x04; x05; x06; x07; x08; x09; x00; x00; x00]
    /\ collectPages s' = Ok (collected, 135)
    /\ length collected = 135
    /\ collected !! 2 = Some "Page 2: 09 00 00 00"
    /\ collected !! 3 = Some "Page 3: 00 00 00 00"
    /\ length lines = 135
    /\ lines !! 1 = Some "Page 1: 05 06 07 08".
Proof.
  destruct (page_listing (fun _ n => n)
              (mkSlice [x01; x02; x03; x04; x05; x06; x07; x08; x09] [])
              (Join (finalLines
                       (mkSlice [x01; x02; x03; x04; x05; x06; x07; x08; x09; x00; x00; x00]
                          [])) LF))
    as (s' & collected & lines & Hpad & He & Hc & Hlc & Hcol & _ & Hl & Hbody & _).
  - vm_compute. reflexivity.
  - exists s', collected, lines.
    assert (s' = mkSlice [x01; x02; x03; x04; x05; x06; x07; x08; x09; x00; x00; x00] [])
      as Hs' by (vm_compute in Hpad; congruence).
    split; [exact Hpad|]. split; [exact He|]. split; [exact Hc|]. split; [exact Hlc|].
    split; [rewrite (Hcol 2), Hs' by lia; reflexivity|].
    split; [rewrite (Hcol 3), Hs' by lia; reflexivity|].
    split; [exact Hl|].
    rewrite (Hbody 1), (Hcol 1), Hs' by lia. reflexivity.
Defined.

(** C6: a buffer of exactly 540 bytes is neither padded nor cut: the page
    loop renders all of its 135 groups, no zero page is added, and each of
    the pages 0 to 132 is returned as its four bytes in uppercase
    hexadecimal. *)
Theorem exact_540_verbatim (growCap : nat -> nat -> nat) (s : slice) :
  slen s = 540 ->
  padToPages growCap s = Ok s
  /\ pageLoop Ntag215PageQuantity s 0 0 []
     = Ok ((fun k => pageLine k (pageBytes (elems s) k)) <$> seq 0 135, 135)
  /\ collectPages s
     = Ok ((fun k => pageLine k (pageBytes (elems s) k)) <$> seq 0 135, 135)
  /\ exists lines : list string,
       nfcPages growCap s = Ok lines
       /\ convertBinDataToNfcPages growCap s = Ok (Join lines LF)
       /\ length lines = 135
       /\ forall i, i <= 132 ->
            exists b0 b1 b2 b3 : byte,
              elems s !! (4 * i) = Some b0
              /\ elems s !! (4 * i + 1) = Some b1
              /\ elems s !! (4 * i + 2) = Some b2
              /\ elems s !! (4 * i + 3) = Some b3
              /\ lines !! i
                 = Some ("Page " +:+ FormatInt i +:+ ": " +:+ hexPair b0 +:+ " "
                         +:+ hexPair b1 +:+ " " +:+ hexPair b2 +:+ " " +:+ hexPair b3).
Proof.
  intros Hlen.
  assert (slen s mod 4 = 0) as Hal by (by rewrite Hlen).
  assert (renderedGroups s = 135) as Hg
    by (unfold renderedGroups, Ntag215PageQuantity; by rewrite Hlen).
  assert (padToPages growCap s = Ok s) as Hpad by (by apply padToPages_aligned).
  split; [exact Hpad|]. split; [|split].
  - pose proof (pageLoop_spec s Ntag215PageQuantity 0 [] Hal) as H.
    rewrite Hg, Nat.mul_0_r in H. apply H; unfold Ntag215PageQuantity; lia.
  - rewrite collectPages_spec by done. unfold collectedLines.
    rewrite Hg. cbn [Ntag215PageQuantity Nat.sub seq fmap list_fmap].
    by rewrite app_nil_r.
  - exists (finalLines s).
    assert (nfcPages growCap s = Ok (finalLines s)) as Hn.
    { apply (nfcPages_in_cap growCap s s Hpad). unfold scap, slen in *. lia. }
    split; [exact Hn|]. split.
    { unfold convertBinDataToNfcPages. by rewrite Hn. }
    split; [apply length_finalLines|]. intros i Hi.
    exists (byteAt (elems s) (4 * i)), (byteAt (elems s) (4 * i + 1)),
      (byteAt (elems s) (4 * i + 2)), (byteAt (elems s) (4 * i + 3)).
    unfold slen in Hlen.
    rewrite <- !byteAt_lookup by lia. repeat split.
    rewrite finalLines_lookup_body, collectedLines_lookup by lia.
    replace (i <? slen s / 4) with true; [done|].
    symmetry. apply Nat.ltb_lt. unfold slen. rewrite Hlen. cbn. lia.
Qed.

Lemma exact_540_verbatim_witness :
  slen (mkSlice (replicate 540 x5a) []) = 540
  /\ padToPages (fun _ n => n) (mkSlice (replicate 540 x5a) [])
     = Ok (mkSlice (replicate 540 x5a) []).
Proof.
  split; [reflexivity|].
  exact (proj1 (exact_540_verbatim (fun _ n => n) (mkSlice (replicate 540 x5a) [])
                 eq_refl)).
Defined.

(** ** Short and empty inputs *)

(** C1: for an empty file, [loadBinFile] returns a slice of length 0 whose
    backing array holds zero bytes, so both slice expressions of
    [extractUid] are in range and read zeros; the conversion returns 135
    pages, pages 0 to 132 zero, page 133 the password [AA 55 AA 55] of the
    all-zero UID and page 134 the fixed [80 80 00 00]; and the document
    written for the file is the eighteen header lines, with the all-zero
    UID and a page total of 135, followed by these 135 page lines, joined
    by line feeds with none after the last. *)
Theorem empty_file_converts (growCap : nat -> nat -> nat) (w : world) (file : string) :
  files w !! file = Some [] ->
  exists fileContent : slice,
    loadBinFile w file = (fileContent, None)
    /\ slen fileContent = 0
    /\ subslice fileContent 0 3 = Ok [x00; x00; x00]
    /\ subslice fileContent 4 8 = Ok [x00; x00; x00; x00]
    /\ extractUid fileContent = Ok "00 00 00 00 00 00 00"
    /\ nfcPages growCap fileContent
       = Ok (((fun k => "Page " +:+ FormatInt k +:+ ": 00 00 00 00") <$> seq 0 133)
             ++ ["Page 133: AA 55 AA 55"; "Page 134: 80 80 00 00"])
    /\ (exists lines : list string,
          nfcPages growCap fileContent = Ok lines
          /\ length lines = 135
          /\ lines !! 0 = Some "Page 0: 00 00 00 00"
          /\ lines !! 132 = Some "Page 132: 00 00 00 00"
          /\ lines !! 133 = Some "Page 133: AA 55 AA 55"
          /\ lines !! 134 = Some "Page 134: 80 80 00 00")
    /\ nfcContentOf growCap fileContent
       = Ok (createNfcFileContent "00 00 00 00 00 00 00"
               (Join (((fun k => "Page " +:+ FormatInt k +:+ ": 00 00 00 00") <$> seq 0 133)
                      ++ ["Page 133: AA 55 AA 55"; "Page 134: 80 80 00 00"]) LF))
    /\ nfcContentOf growCap fileContent
       = Ok (Join ([ "Filetype: Flipper NFC device";
                     "Version: 2";
                     "# Nfc device type can be UID, Mifare Ultralight, Bank card";
                     "Device type: NTAG215";
                     "# UID, ATQA and SAK are common for all formats";
                     "UID: 00 00 00 00 00 00 00";
                     "ATQA: 44 00";
                     "SAK: 00";
                     "# Mifare Ultralight specific data";
                     "Signature: 00 00 00 00 00 00 00 00 00 00 00 00 00 00 00 00 00 00 00 00 00 00 00 00 00 00 00 00 00 00 00 00";
                     "Mifare version: 00 04 04 02 01 00 11 03";
                     "Counter 0: 0";
                     "Tearing 0: 00";
                     "Counter 1: 0";
                     "Tearing 1: 00";
                     "Counter 2: 0";
                     "Tearing 2: 00";
                     "Pages total: 135" ]
                   ++ ((fun k => "Page " +:+ FormatInt k +:+ ": 00 00 00 00") <$> seq 0 133)
                   ++ ["Page 133: AA 55 AA 55"; "Page 134: 80 80 00 00"]) LF).
Proof.
  intros H. exists (readSlice []).
  split; [unfold loadBinFile, ReadFile; by rewrite H|].
  do 5 (split; [vm_compute; reflexivity|]).
  split.
  { exists (((fun k => "Page " +:+ FormatInt k +:+ ": 00 00 00 00") <$> seq 0 133)
            ++ ["Page 133: AA 55 AA 55"; "Page 134: 80 80 00 00"]).
    repeat split; vm_compute; reflexivity. }
  split; vm_compute; reflexivity.
Qed.

Lemma empty_file_converts_witness :
  exists fileContent : slice,
    loadBinFile (mkWorld {["Amiibo Bins/empty.bin" := []]} (fun _ => true) [])
      "Amiibo Bins/empty.bin" = (fileContent, None)
    /\ slen fileContent = 0
    /\ subslice fileContent 0 3 = Ok [x00; x00; x00]
    /\ subslice fileContent 4 8 = Ok [x00; x00; x00; x00]
    /\ extractUid fileContent = Ok "00 00 00 00 00 00 00"
    /\ nfcPages (fun _ n => n) fileContent
       = Ok (((fun k => "Page " +:+ FormatInt k +:+ ": 00 00 00 00") <$> seq 0 133)
             ++ ["Page 133: AA 55 AA 55"; "Page 134: 80 80 00 00"])
    /\ (exists lines : list string,
          nfcPages (fun _ n => n) fileContent = Ok lines
          /\ length lines = 135
          /\ lines !! 0 = Some "Page 0: 00 00 00 00"
          /\ lines !! 132 = Some "Page 132: 00 00 00 00"
          /\ lines !! 133 = Some "Page 133: AA 55 AA 55"
          /\ lines !! 134 = Some "Page 134: 80 80 00 00")
    /\ nfcContentOf (fun _ n => n) fileContent
       = Ok (createNfcFileContent "00 00 00 00 00 00 00"
               (Join (((fun k => "Page " +:+ FormatInt k +:+ ": 00 00 00 00") <$> seq 0 133)
                      ++ ["Page 133: AA 55 AA 55"; "Page 134: 80 80 00 00"]) LF))
    /\ nfcContentOf (fun _ n => n) fileContent
       = Ok (Join ([ "Filetype: Flipper NFC device";
                     "Version: 2";
                     "# Nfc device type can be UID, Mifare Ultralight, Bank card";
                     "Device type: NTAG215";
                     "# UID, ATQA and SAK are common for all formats";
                     "UID: 00 00 00 00 00 00 00";
                     "ATQA: 44 00";
                     "SAK: 00";
                     "# Mifare Ultralight specific data";
                     "Signature: 00 00 00 00 00 00 00 00 00 00 00 00 00 00 00 00 00 00 00 00 00 00 00 00 00 00 00 00 00 00 00 00";
                     "Mifare version: 00 04 04 02 01 00 11 03";
                     "Counter 0: 0";
                     "Tearing 0: 00";
                     "Counter 1: 0";
                     "Tearing 1: 00";
                     "Counter 2: 0";
                     "Tearing 2: 00";
                     "Pages total: 135" ]
                   ++ ((fun k => "Page " +:+ FormatInt k +:+ ": 00 00 00 00") <$> seq 0 133)
                   ++ ["Page 133: AA 55 AA 55"; "Page 134: 80 80 00 00"]) LF).
Proof.
  apply (empty_file_converts (fun _ n => n)
           (mkWorld {["Amiibo Bins/empty.bin" := []]} (fun _ => true) [])
           "Amiibo Bins/empty.bin").
  vm_compute. reflexivity.
Defined.

(** C10, as the code has it: an input of 5 bytes or more is padded to 8 or
    more, and every slice expression and both page writes are in range.
    Shorter inputs are decided by the capacity of the padded buffer, not by
    its length: with a capacity of 8 or more the conversion returns (the
    UID is read from the backing array), with less it panics; an input of
    length 0 or 4 is not padded, so its own capacity decides. *)
Theorem short_inputs_by_capacity (growCap : nat -> nat -> nat) (s : slice) :
  exists s' : slice,
    padToPages growCap s = Ok s'
    /\ scap s <= scap s'
    /\ (5 <= slen s -> 8 <= slen s' /\ 8 <= scap s')
    /\ (slen s = 0 \/ slen s = 4 -> s' = s)
    /\ (8 <= scap s' ->
        subslice s' 0 3 = Ok (take 3 (backing s'))
        /\ subslice s' 4 8 = Ok (take 4 (drop 4 (backing s')))
        /\ exists lines : list string,
             collectPages s' = Ok (collectedLines s', 135)
             /\ setIndex (collectedLines s') 133 (pageLine 133 (passwordBytes (uidBytesOf s')))
                = Ok (<[133 := pageLine 133 (passwordBytes (uidBytesOf s'))]> (collectedLines s'))
             /\ setIndex (<[133 := pageLine 133 (passwordBytes (uidBytesOf s'))]> (collectedLines s'))
                  134 "Page 134: 80 80 00 00" = Ok lines
             /\ nfcPages growCap s = Ok lines
             /\ convertBinDataToNfcPages growCap s = Ok (Join lines LF))
    /\ (scap s' < 8 ->
        extractUid s' = Panic SliceBoundsOutOfRange
        /\ convertBinDataToNfcPages growCap s = Panic SliceBoundsOutOfRange).
Proof.
  destruct (nfcPages_outcome growCap s) as (s' & Hpad & He & Hc & Hout).
  destruct (padded_slen growCap s s' Hpad) as (Hal & Hge & Hlt).
  exists s'. split; [done|]. split; [done|]. split; [|split; [|split]].
  - intros H5. unfold scap, slen in *. lia.
  - intros H04. rewrite padToPages_aligned in Hpad by (by destruct H04 as [-> | ->]).
    by injection Hpad.
  - intros H8. destruct Hout as [[_ Hn]|[Hlt8 _]]; [|lia].
    split; [by rewrite subslice_in_cap by lia|].
    split; [by rewrite subslice_in_cap by lia|].
    exists (finalLines s'). split; [by apply collectPages_spec|].
    unfold setIndex. rewrite length_insert, length_collectedLines.
    repeat split; try done. unfold convertBinDataToNfcPages. by rewrite Hn.
  - intros H8. destruct Hout as [[Hge8 _]|[_ Hn]]; [lia|].
    split; [by apply extractUid_beyond_cap|].
    unfold convertBinDataToNfcPages. by rewrite Hn.
Qed.

Lemma short_inputs_by_capacity_witness :
  convertBinDataToNfcPages (fun _ n => n) (mkSlice [x01; x02; x03; x04] [])
  = Panic SliceBoundsOutOfRange.
Proof.
  destruct (short_inputs_by_capacity (fun _ n => n) (mkSlice [x01; x02; x03; x04] []))
    as (s' & Hpad & _ & _ & Hsame & _ & Hpanic).
  rewrite (Hsame (or_intror eq_refl)) in Hpanic.
  apply Hpanic. vm_compute. lia.
Defined.

(** Against C10 as stated (inputs of length 0 to 4 hit an out-of-range
    access): a 4-byte file as [loadBinFile] returns it has length 4 and
    capacity 512; its conversion does not panic, and the UID is read from
    the zero bytes behind the content. *)
Lemma short_input_with_capacity_converts :
  slen (readSlice [x01; x02; x03; x04]) = 4
  /\ scap (readSlice [x01; x02; x03; x04]) = 512
  /\ ~ (exists p, convertBinDataToNfcPages (fun _ n => n) (readSlice [x01; x02; x03; x04])
                  = Panic p)
  /\ extractUid (readSlice [x01; x02; x03; x04]) = Ok "01 02 03 00 00 00 00"
  /\ match nfcPages (fun _ n => n) (readSlice [x01; x02; x03; x04]) with
     | Ok lines => (lines !! 0, lines !! 1, lines !! 133, lines !! 134)
     | _ => (None, None, None, None)
     end
     = (Some "Page 0: 01 02 03 04", Some "Page 1: 00 00 00 00",
        Some "Page 133: A8 56 AA 55", Some "Page 134: 80 80 00 00").
Proof.
  split; [reflexivity|]. split; [reflexivity|]. split; [|split].
  - intros [p Hp].
    destruct (nfcContentOf_readSlice (fun _ n => n) [x01; x02; x03; x04])
      as (uid & pages & _ & Hc & _).
    rewrite Hc in Hp. discriminate.
  - vm_compute. reflexivity.
  - vm_compute. reflexivity.
Qed.

(** ** The batch loop *)

Section MainFacts.
Variable growCap : nat -> nat -> nat.
Variables inputDir outputDir : string.

Lemma mainLoop_app (done rest : list string) (w : world) :
  mainLoop growCap inputDir outputDir (done ++ rest) w
  = match mainLoop growCap inputDir outputDir done w with
    | (w', Ok _) => mainLoop growCap inputDir outputDir rest w'
    | stopped => stopped
    end.
Proof.
  revert w. induction done as [|file done IH]; intros w; [done|].
  cbn [app mainLoop].
  destruct (loadBinFile w file) as [fileContent [err|]]; [done|].
  destruct (nfcContentOf growCap fileContent); [|done..].
  destruct (saveNfcFile _ _ _) as [w' [err|]]; apply IH.
Qed.

(** A file that cannot be read stops the loop with a panic. *)
Lemma mainLoop_load_failure (file : string) (rest : list string) (w : world) :
  files w !! file = None ->
  mainLoop growCap inputDir outputDir (file :: rest) w
  = (emit w (Logged "error when loading file, check filename"),
     Panic (LogPanic "error when loading file, check filename")).
Proof.
  intros H. cbn [mainLoop]. unfold loadBinFile, ReadFile. by rewrite H.
Qed.

(** A file that cannot be written is logged and the loop goes on. *)
Lemma mainLoop_write_failure (file : string) (rest : list string) (w : world)
    (content : list byte) :
  files w !! file = Some content ->
  writable w (outputPathOf inputDir outputDir file) = false ->
  mainLoop growCap inputDir outputDir (file :: rest) w
  = mainLoop growCap inputDir outputDir rest
      (emit (emit w (Stdout ("Proccess file:  " +:+ file)))
         (Logged "Error when save NfcFile  error when write nfc file")).
Proof.
  intros Hf Hw. cbn [mainLoop]. unfold loadBinFile, ReadFile. rewrite Hf.
  cbn [fmap option_fmap option_map].
  destruct (nfcContentOf_readSlice growCap content) as (uid & pages & _ & _ & ->).
  unfold saveNfcFile, WriteFile. cbn [emit writable]. by rewrite Hw.
Qed.
End MainFacts.

(** C8: when the files before [file] have been processed, a failure to
    load [file] ends the run in a panic, whatever files come after it,
    and nothing more is read, written or printed; a failure to write the
    output of [file] is logged and the loop goes on with the files after
    it. *)
Theorem load_failure_aborts_write_failure_continues
    (growCap : nat -> nat -> nat) (inputDir outputDir : string)
    (before after : list string) (file : string) (w w' : world) :
  mainLoop growCap inputDir outputDir before w = (w', Ok tt) ->
  (files w' !! file = None ->
   mainLoop growCap inputDir outputDir (before ++ file :: after) w
   = (emit w' (Logged "error when loading file, check filename"),
      Panic (LogPanic "error when loading file, check filename")))
  /\ (forall content : list byte,
        files w' !! file = Some content ->
        writable w' (outputPathOf inputDir outputDir file) = false ->
        mainLoop growCap inputDir outputDir (before ++ file :: after) w
        = mainLoop growCap inputDir outputDir after
            (emit (emit w' (Stdout ("Proccess file:  " +:+ file)))
               (Logged "Error when save NfcFile  error when write nfc file"))).
Proof.
  intros Hbefore. split.
  - intros Hf. rewrite mainLoop_app, Hbefore. by apply mainLoop_load_failure.
  - intros content Hf Hw. rewrite mainLoop_app, Hbefore.
    by apply (mainLoop_write_failure _ _ _ _ _ _ content).
Qed.

Lemma load_failure_aborts_write_failure_continues_witness :
  printed (fst (mainLoop (fun _ n => n) "dumps" "nfc" ["dumps/a.bin"; "dumps/c.bin"] batch_world))
  = [ Stdout "Proccess file:  dumps/a.bin";
      Logged "Error when save NfcFile  error when write nfc file";
      Stdout "Proccess file:  dumps/c.bin" ]
  /\ mainLoop (fun _ n => n) "dumps" "nfc" ["dumps/c.bin"; "dumps/b.bin"; "dumps/a.bin"] batch_world
     = (emit (fst (mainLoop (fun _ n => n) "dumps" "nfc" ["dumps/c.bin"] batch_world))
          (Logged "error when loading file, check filename"),
        Panic (LogPanic "error when loading file, check filename")).
Proof.
  split.
  - pose proof (proj2 (load_failure_aborts_write_failure_continues
                         (fun _ n => n) "dumps" "nfc" [] ["dumps/c.bin"] "dumps/a.bin"
                         batch_world batch_world eq_refl)
                  [x04; xa1; xb2; x9f; xc3; xd4; xe5; xf6]) as E.
    cbn [app] in E. rewrite E; vm_compute; reflexivity.
  - apply (proj1 (load_failure_aborts_write_failure_continues
                    (fun _ n => n) "dumps" "nfc" ["dumps/c.bin"] ["dumps/a.bin"] "dumps/b.bin"
                    batch_world
                    (fst (mainLoop (fun _ n => n) "dumps" "nfc" ["dumps/c.bin"] batch_world))
                    ltac:(vm_compute; reflexivity))).
    vm_compute. reflexivity.
Defined.

(** * Further properties of the program *)

(** ** [extractUid] and [calculatePassword] at their bounds *)

Lemma length_uid_text (bs : list byte) :
  length bs = 7 -> String.length (Join (hexPair <$> bs) " ") = 20.
Proof.
  intros H. destruct bs as [|b0 [|b1 [|b2 [|b3 [|b4 [|b5 [|b6 [|]]]]]]]]; try done.
Qed.

(** [extractUid] returns exactly when the capacity of its argument is 8 or
    more, whatever the length; the text then has 20 characters and decodes
    (spaces removed) to the seven bytes at indices 0, 1, 2, 4, 5, 6, 7 of
    the backing array. Otherwise it panics on a slice expression. *)
Theorem extractUid_outcome (s : slice) :
  ((exists text, extractUid s = Ok text) <-> 8 <= scap s)
  /\ (scap s < 8 <-> extractUid s = Panic SliceBoundsOutOfRange)
  /\ forall text, extractUid s = Ok text ->
       String.length text = 20
       /\ DecodeString (ReplaceAll text " " "")
          = [byteAt (backing s) 0; byteAt (backing s) 1; byteAt (backing s) 2;
             byteAt (backing s) 4; byteAt (backing s) 5; byteAt (backing s) 6;
             byteAt (backing s) 7].
Proof.
  destruct (le_lt_dec 8 (scap s)) as [H|H].
  - pose proof (extractUid_in_cap s H) as E. split; [|split].
    + split; [done|]. intros _. by eexists.
    + split; [lia|]. intros E'. rewrite E in E'. discriminate.
    + intros text Ht. rewrite E in Ht. apply Ok_inj in Ht. subst text.
      split; [by apply length_uid_text, length_uidBytesOf|].
      rewrite Decode_uid_text. unfold uidBytesOf. apply uid_bytes_at.
      unfold backing, scap in *. by rewrite length_app.
  - pose proof (extractUid_beyond_cap s H) as E. split; [|split].
    + split; [|lia]. intros [text Ht]. rewrite E in Ht. discriminate.
    + done.
    + intros text Ht. rewrite E in Ht. discriminate.
Qed.

Lemma extractUid_outcome_witness :
  String.length "04 A1 B2 C3 D4 E5 F6" = 20
  /\ DecodeString (ReplaceAll "04 A1 B2 C3 D4 E5 F6" " " "")
     = [x04; xa1; xb2; xc3; xd4; xe5; xf6].
Proof.
  exact (proj2 (proj2 (extractUid_outcome
                         (mkSlice [x04; xa1] [xb2; x9f; xc3; xd4; xe5; xf6; x00])))
           "04 A1 B2 C3 D4 E5 F6" eq_refl).
Defined.

(** [calculatePassword] returns exactly on strings of 7 bytes or more, an
    11-character text, and panics on an index otherwise; the result does
    not depend on byte 0 nor on the bytes after byte 6. *)
Theorem calculatePassword_outcome (rawUid : string) :
  (7 <= String.length rawUid ->
   exists text, calculatePassword rawUid = Ok text /\ String.length text = 11)
  /\ (String.length rawUid < 7 -> calculatePassword rawUid = Panic IndexOutOfRange)
  /\ (forall (c0 c0' : ascii) (u rest rest' : string),
        String.length u = 6 ->
        calculatePassword (String c0 (u +:+ rest))
        = calculatePassword (String c0' (u +:+ rest'))).
Proof.
  split; [|split].
  - intros H.
    destruct rawUid as [|c0 [|c1 [|c2 [|c3 [|c4 [|c5 [|c6 rest]]]]]]];
      cbn [String.length] in H; try lia.
    eexists. split; reflexivity.
  - intros H.
    destruct rawUid as [|c0 [|c1 [|c2 [|c3 [|c4 [|c5 [|c6 rest]]]]]]];
      cbn [String.length] in H; try lia; reflexivity.
  - intros c0 c0' u rest rest' H.
    destruct u as [|c1 [|c2 [|c3 [|c4 [|c5 [|c6 [|]]]]]]]; try done.
Qed.

Lemma calculatePassword_outcome_witness :
  calculatePassword "abcdef" = Panic IndexOutOfRange
  /\ exists text, calculatePassword "abcdefg" = Ok text /\ String.length text = 11.
Proof.
  split.
  - apply (proj1 (proj2 (calculatePassword_outcome "abcdef"))). cbn. lia.
  - apply (proj1 (calculatePassword_outcome "abcdefg")). cbn. lia.
Defined.

(** ** The padding step *)

Lemma byteAt_app_zeros (l : list byte) (k i : nat) :
  byteAt (l ++ replicate k x00) i = byteAt l i.
Proof.
  unfold byteAt. destruct (le_lt_dec (length l) i) as [H|H].
  - rewrite lookup_app_r, (lookup_ge_None_2 l i) by done.
    destruct (replicate k x00 !! (i - length l)) as [b|] eqn:E; [|done].
    by apply lookup_replicate in E as [-> _].
  - by rewrite lookup_app_l.
Qed.

Section PaddingFacts.
Variable growCap : nat -> nat -> nat.

(** With room behind the elements the zero bytes go into the backing array
    the caller holds. *)
Lemma padLoop_in_place (fuel : nat) (s : slice) :
  (4 - slen s mod 4) mod 4 <= fuel ->
  (4 - slen s mod 4) mod 4 <= length (spare s) ->
  padLoop growCap fuel s
  = Ok (mkSlice (elems s ++ replicate ((4 - slen s mod 4) mod 4) x00)
          (drop ((4 - slen s mod 4) mod 4) (spare s))).
Proof.
  revert s. induction fuel as [|fuel IH]; intros [l sp] Hfuel Hsp;
    cbn [padLoop]; destruct (slen (mkSlice l sp) mod 4 =? 0) eqn:E.
  - apply Nat.eqb_eq in E. rewrite E. cbn. by rewrite app_nil_r.
  - apply Nat.eqb_neq in E. lia.
  - apply Nat.eqb_eq in E. rewrite E. cbn. by rewrite app_nil_r.
  - apply Nat.eqb_neq in E. cbn [spare] in Hsp.
    destruct sp as [|b sp]; [cbn [length] in Hsp; lia|].
    unfold append1 at 1. cbn [spare elems].
    rewrite IH.
    + unfold slen. cbn [elems spare]. rewrite length_app. cbn [length].
      unfold slen in E. cbn [elems] in E.
      replace ((4 - length l mod 4) mod 4)
        with (S ((4 - (length l + 1) mod 4) mod 4)) by lia.
      cbn [replicate drop]. by rewrite <- app_assoc.
    + unfold slen in *. cbn [elems] in *. rewrite length_app. cbn [length]. lia.
    + unfold slen in *. cbn [elems spare length] in *. rewrite length_app.
      cbn [length]. lia.
Qed.

(** A backing array that is zero behind the elements stays so. *)
Lemma padLoop_zero_spare (fuel : nat) (s s' : slice) :
  spare s = replicate (length (spare s)) x00 ->
  padLoop growCap fuel s = Ok s' ->
  spare s' = replicate (length (spare s')) x00.
Proof.
  revert s. induction fuel as [|fuel IH]; intros s Hz H;
    cbn [padLoop] in H; destruct (slen s mod 4 =? 0); try done.
  - by injection H as <-.
  - by injection H as <-.
  - apply (IH (append1 growCap s x00)); [|done].
    unfold append1. destruct (spare s) as [|b sp] eqn:Es; cbn [spare].
    + by rewrite length_replicate.
    + cbn [length replicate] in Hz. by injection Hz.
Qed.

Lemma padToPages_zero_spare (s s' : slice) :
  spare s = replicate (length (spare s)) x00 ->
  padToPages growCap s = Ok s' ->
  forall i, byteAt (backing s') i = byteAt (elems s) i.
Proof.
  intros Hz Hpad i.
  destruct (padToPages_spec growCap s) as (s'' & Hpad' & He & _).
  rewrite Hpad in Hpad'. injection Hpad' as <-.
  assert (spare s' = replicate (length (spare s')) x00) as Hz'.
  { unfold padToPages in Hpad. destruct (negb _).
    - by apply (padLoop_zero_spare 3 s s').
    - by injection Hpad as <-. }
  unfold backing. by rewrite Hz', He, !byteAt_app_zeros.
Qed.
End PaddingFacts.

(** The padding step returns for every slice and growth policy: it keeps
    the input bytes, appends at most three zero bytes up to the next
    multiple of 4, never lowers the capacity, and changes nothing when
    applied again. When the spare capacity suffices the zero bytes are
    written into the existing backing array. *)
Theorem padToPages_next_multiple (growCap : nat -> nat -> nat) (s : slice) :
  exists (s' : slice) (k : nat),
    padToPages growCap s = Ok s'
    /\ k <= 3
    /\ elems s' = elems s ++ replicate k x00
    /\ slen s' mod 4 = 0
    /\ scap s <= scap s'
    /\ padToPages growCap s' = Ok s'
    /\ (slen s mod 4 = 0 -> s' = s)
    /\ (k <= length (spare s) -> spare s' = drop k (spare s) /\ scap s' = scap s).
Proof.
  destruct (padToPages_spec growCap s) as (s' & Hpad & He & Hc).
  destruct (padded_slen growCap s s' Hpad) as (Hal & Hge & Hlt).
  exists s', ((4 - slen s mod 4) mod 4).
  split; [done|]. split; [lia|]. split; [done|]. split; [done|]. split; [done|].
  split; [by apply padToPages_aligned|]. split.
  - intros H0. rewrite padToPages_aligned in Hpad by done. by injection Hpad.
  - intros Hk. assert (padLoop growCap 3 s = Ok s') as Hl.
    { unfold padToPages in Hpad. destruct (slen s mod 4 =? 0) eqn:E; [|done].
      cbn [negb] in Hpad. injection Hpad as <-. cbn [padLoop]. by rewrite E. }
    rewrite padLoop_in_place in Hl by lia. apply Ok_inj in Hl. subst s'.
    cbn [spare]. split; [done|]. unfold scap. cbn [elems spare].
    rewrite length_app, length_replicate, length_drop. lia.
Qed.

(** ** What the pages show *)

Lemma pageBytes_app_zeros (l : list byte) (k i : nat) :
  pageBytes (l ++ replicate k x00) i = pageBytes l i.
Proof. unfold pageBytes. by rewrite !byteAt_app_zeros. Qed.

Lemma finalLines_body_of_input (s s' : slice) (k i : nat) :
  elems s' = elems s ++ replicate k x00 -> slen s' mod 4 = 0 -> i < 133 ->
  finalLines s' !! i = Some (pageLine i (pageBytes (elems s) i)).
Proof.
  intros He Hal Hi. rewrite finalLines_lookup_body, collectedLines_lookup by lia.
  destruct (i <? slen s' / 4) eqn:E.
  - by rewrite He, pageBytes_app_zeros.
  - apply Nat.ltb_ge in E. rewrite pageBytes_beyond; [done|].
    assert (length (elems s) <= slen s')
      by (unfold slen; rewrite He, length_app; lia).
    lia.
Qed.

(** Whenever the conversion returns, each of the pages 0 to 132 shows the
    four input bytes at offsets [4i] to [4i+3], with [00] for every offset
    at or after the end of the input. *)
Theorem pages_show_input_bytes (growCap : nat -> nat -> nat) (s : slice)
    (lines : list string) :
  nfcPages growCap s = Ok lines ->
  forall i, i < 133 ->
    lines !! i
    = Some ("Page " +:+ FormatInt i +:+ ": "
            +:+ hexPair (byteAt (elems s) (4 * i)) +:+ " "
            +:+ hexPair (byteAt (elems s) (4 * i + 1)) +:+ " "
            +:+ hexPair (byteAt (elems s) (4 * i + 2)) +:+ " "
            +:+ hexPair (byteAt (elems s) (4 * i + 3))).
Proof.
  intros H i Hi.
  destruct (nfcPages_outcome growCap s) as (s' & Hpad & He & _ & [[_ Hn]|[_ Hn]]);
    rewrite Hn in H; [|discriminate].
  apply Ok_inj in H. subst lines.
  destruct (padded_slen growCap s s' Hpad) as (Hal & _).
  by rewrite (finalLines_body_of_input s s' _ i He Hal Hi).
Qed.

Lemma pages_show_input_bytes_witness :
  finalLines (mkSlice [x01; x02; x03; x04; x05; x06; x07; x08; x09; x00; x00; x00] []) !! 2
  = Some "Page 2: 09 00 00 00".
Proof.
  exact (pages_show_input_bytes (fun _ n => n)
           (mkSlice [x01; x02; x03; x04; x05; x06; x07; x08; x09] [])
           (finalLines
              (mkSlice [x01; x02; x03; x04; x05; x06; x07; x08; x09; x00; x00; x00] []))
           ltac:(vm_compute; reflexivity) 2 ltac:(lia)).
Defined.

Lemma collectedLines_elems (s1 s2 : slice) :
  elems s1 = elems s2 -> collectedLines s1 = collectedLines s2.
Proof.
  intros H. unfold collectedLines, renderedGroups, slen. by rewrite H.
Qed.

(** For an input of 5 bytes or more the conversion returns, and its result
    is a function of the bytes alone: the capacity of the slice, what its
    backing array holds behind the bytes and the growth policy of [append]
    do not reach the result. *)
Theorem convert_reads_only_the_bytes (growCap1 growCap2 : nat -> nat -> nat)
    (s1 s2 : slice) :
  5 <= slen s1 -> elems s1 = elems s2 ->
  exists out : string,
    convertBinDataToNfcPages growCap1 s1 = Ok out
    /\ convertBinDataToNfcPages growCap2 s2 = Ok out.
Proof.
  intros H5 He.
  destruct (nfcPages_outcome growCap1 s1) as (s1' & Hp1 & He1 & _ & Ho1).
  destruct (nfcPages_outcome growCap2 s2) as (s2' & Hp2 & He2 & _ & Ho2).
  destruct (padded_slen growCap1 s1 s1' Hp1) as (Ha1 & Hg1 & _).
  destruct (padded_slen growCap2 s2 s2' Hp2) as (Ha2 & Hg2 & _).
  assert (slen s2 = slen s1) as Hl by (unfold slen; by rewrite He).
  assert (8 <= slen s1') as H81 by lia.
  assert (8 <= slen s2') as H82 by lia.
  destruct Ho1 as [[_ Hn1]|[Hc1 _]]; [|unfold scap, slen in *; lia].
  destruct Ho2 as [[_ Hn2]|[Hc2 _]]; [|unfold scap, slen in *; lia].
  assert (elems s1' = elems s2') as He' by (by rewrite He1, He2, He, Hl).
  exists (Join (finalLines s1') LF).
  unfold convertBinDataToNfcPages. rewrite Hn1, Hn2. split; [done|].
  cbn [mbind result_bind]. do 2 f_equal. unfold finalLines.
  by rewrite (collectedLines_elems s2' s1'), !uidBytesOf_elems, He' by done.
Qed.

Lemma convert_reads_only_the_bytes_witness :
  exists out : string,
    convertBinDataToNfcPages (fun _ n => n) (mkSlice [x01; x02; x03; x04; x05] []) = Ok out
    /\ convertBinDataToNfcPages (fun c n => 2 * c + n)
         (mkSlice [x01; x02; x03; x04; x05] [xff; xff; xff; xff; xff; xff]) = Ok out.
Proof.
  apply (convert_reads_only_the_bytes (fun _ n => n) (fun c n => 2 * c + n)
           (mkSlice [x01; x02; x03; x04; x05] [])
           (mkSlice [x01; x02; x03; x04; x05] [xff; xff; xff; xff; xff; xff])).
  - cbn. lia.
  - reflexivity.
Defined.

(** ** One file, from its bytes to its document *)

Lemma uidBytesOf_readSlice (content : list byte) :
  uidBytesOf (readSlice content) = fileUid content.
Proof.
  unfold uidBytesOf, backing, readSlice. cbn [elems spare].
  rewrite uid_bytes_at by (rewrite length_app, length_replicate; lia).
  unfold fileUid. by rewrite !byteAt_app_zeros.
Qed.

Section FileFacts.
Variable growCap : nat -> nat -> nat.

Lemma nfcPages_readSlice (content : list byte) :
  exists s' : slice,
    nfcPages growCap (readSlice content) = Ok (finalLines s')
    /\ uidBytesOf s' = fileUid content
    /\ forall i, i < 133 -> finalLines s' !! i = Some (pageLine i (pageBytes content i)).
Proof.
  destruct (nfcPages_outcome growCap (readSlice content))
    as (s' & Hpad & He & Hc & Hout).
  destruct (padded_slen growCap _ s' Hpad) as (Hal & _).
  assert (8 <= scap s') as H8.
  { assert (512 <= scap (readSlice content)); [|lia].
    unfold scap, readSlice. cbn [elems spare]. rewrite length_replicate. lia. }
  destruct Hout as [[_ Hn]|[Hlt _]]; [|lia].
  exists s'. split; [done|]. split.
  - unfold uidBytesOf. rewrite uid_bytes_at
      by (unfold backing, scap in *; by rewrite length_app).
    unfold fileUid.
    assert (spare (readSlice content)
            = replicate (length (spare (readSlice content))) x00) as Hz
      by (unfold readSlice; cbn [spare]; by rewrite length_replicate).
    by rewrite !(padToPages_zero_spare growCap (readSlice content) s' Hz Hpad).
  - intros i Hi. by apply (finalLines_body_of_input (readSlice content) s' _ i He).
Qed.
End FileFacts.

(** For every file content, what [main] builds from the loaded file is the
    document whose UID line shows bytes 0, 1, 2, 4, 5, 6, 7 of the file,
    whose page 133 holds the password of that same UID, whose page 134 is
    [80 80 00 00] and whose pages 0 to 132 show the bytes of the file, all
    with [00] where the file is shorter. It never panics. *)
Theorem file_document (growCap : nat -> nat -> nat) (content : list byte) :
  exists lines : list string,
    nfcContentOf growCap (readSlice content)
    = Ok (createNfcFileContent (Join (hexPair <$> fileUid content) " ") (Join lines LF))
    /\ length lines = 135
    /\ (forall i, i < 133 -> lines !! i = Some (pageLine i (pageBytes content i)))
    /\ lines !! 133 = Some (pageLine 133 (passwordBytes (fileUid content)))
    /\ lines !! 134 = Some "Page 134: 80 80 00 00".
Proof.
  destruct (nfcPages_readSlice growCap content) as (s' & Hn & Hu & Hbody).
  exists (finalLines s'). split; [|split; [|split; [|split]]].
  - unfold nfcContentOf, convertBinDataToNfcPages.
    rewrite extractUid_in_cap, Hn, uidBytesOf_readSlice; [done|].
    unfold scap, readSlice. cbn [elems spare]. rewrite length_replicate. lia.
  - apply length_finalLines.
  - exact Hbody.
  - by rewrite finalLines_lookup_133, Hu.
  - apply finalLines_lookup_134.
Qed.

(** ** The batch loop, file by file *)

Section LoopFacts.
Variable growCap : nat -> nat -> nat.
Variables inputDir outputDir : string.

(** One round of the loop on a readable file. *)
Lemma mainLoop_step (file : string) (rest : list string) (w : world)
    (content : list byte) :
  files w !! file = Some content ->
  exists doc : string,
    nfcContentOf growCap (readSlice content) = Ok doc
    /\ mainLoop growCap inputDir outputDir (file :: rest) w
       = mainLoop growCap inputDir outputDir rest
           (if writable w (outputPathOf inputDir outputDir file)
            then mkWorld
                   (<[outputPathOf inputDir outputDir file := list_byte_of_string doc]>
                      (files w))
                   (writable w)
                   (printed w ++ [Stdout ("Proccess file:  " +:+ file)])
            else mkWorld (files w) (writable w)
                   (printed w
                    ++ [Stdout ("Proccess file:  " +:+ file);
                        Logged "Error when save NfcFile  error when write nfc file"])).
Proof.
  intros Hf.
  destruct (nfcContentOf_readSlice growCap content) as (uid & pages & _ & _ & Hdoc).
  eexists. split; [exact Hdoc|].
  cbn [mainLoop]. unfold loadBinFile, ReadFile. rewrite Hf.
  cbn [fmap option_fmap option_map]. rewrite Hdoc.
  unfold saveNfcFile, WriteFile. cbn [emit writable files printed].
  destruct (writable w (outputPathOf inputDir outputDir file)); [done|].
  unfold emit. cbn [files writable printed]. by rewrite <- app_assoc.
Qed.

Lemma mainLoop_all_readable (filesToConvert : list string) (w : world) :
  (forall file, file ∈ filesToConvert -> is_Some (files w !! file)) ->
  (mainLoop growCap inputDir outputDir filesToConvert w).2 = Ok tt
  /\ stdoutLines (printed (mainLoop growCap inputDir outputDir filesToConvert w).1)
     = stdoutLines (printed w)
       ++ ((fun file => "Proccess file:  " +:+ file) <$> filesToConvert).
Proof.
  revert w. induction filesToConvert as [|file rest IH]; intros w Hall.
  - cbn. by rewrite app_nil_r.
  - destruct (Hall file) as [content Hf]; [by left|].
    destruct (mainLoop_step file rest w content Hf) as (doc & _ & ->).
    destruct (writable w _).
    + match goal with |- context [mainLoop _ _ _ rest ?w1] =>
        destruct (IH w1) as [Hok Hout] end.
      { intros f Hin. cbn [files].
        destruct (decide (outputPathOf inputDir outputDir file = f)) as [->|Hne].
        - rewrite lookup_insert_eq. by eexists.
        - rewrite lookup_insert_ne by done. apply Hall. by right. }
      split; [done|]. rewrite Hout. cbn [printed]. unfold stdoutLines.
      rewrite omap_app. cbn. by rewrite <- app_assoc.
    + match goal with |- context [mainLoop _ _ _ rest ?w1] =>
        destruct (IH w1) as [Hok Hout] end.
      { intros f Hin. cbn [files]. apply Hall. by right. }
      split; [done|]. rewrite Hout. cbn [printed]. unfold stdoutLines.
      rewrite omap_app. cbn. by rewrite <- app_assoc.
Qed.

Lemma mainLoop_stops_only_on_load (filesToConvert : list string) (w : world) :
  (mainLoop growCap inputDir outputDir filesToConvert w).2 = Ok tt
  \/ (mainLoop growCap inputDir outputDir filesToConvert w).2
     = Panic (LogPanic "error when loading file, check filename").
Proof.
  revert w. induction filesToConvert as [|file rest IH]; intros w; [by left|].
  destruct (files w !! file) as [content|] eqn:Hf.
  - destruct (mainLoop_step file rest w content Hf) as (doc & _ & ->). apply IH.
  - rewrite mainLoop_load_failure by done. by right.
Qed.
End LoopFacts.

(** A file that loads and whose output path can be written: the loop
    prints its line, stores the bytes of its document at the output path
    and goes on; loading the output path afterwards gives the document
    back. *)
Theorem mainLoop_writes_document (growCap : nat -> nat -> nat)
    (inputDir outputDir file : string) (rest : list string) (w : world)
    (content : list byte) :
  files w !! file = Some content ->
  writable w (outputPathOf inputDir outputDir file) = true ->
  exists (doc : string) (w1 : world),
    nfcContentOf growCap (readSlice content) = Ok doc
    /\ mainLoop growCap inputDir outputDir (file :: rest) w
       = mainLoop growCap inputDir outputDir rest w1
    /\ files w1 = <[outputPathOf inputDir outputDir file := list_byte_of_string doc]> (files w)
    /\ printed w1 = printed w ++ [Stdout ("Proccess file:  " +:+ file)]
    /\ (exists fileContent,
          loadBinFile w1 (outputPathOf inputDir outputDir file) = (fileContent, None)
          /\ string_of_list_byte (elems fileContent) = doc).
Proof.
  intros Hf Hw.
  destruct (mainLoop_step growCap inputDir outputDir file rest w content Hf)
    as (doc & Hdoc & Hstep).
  rewrite Hw in Hstep. eexists doc, _. split; [done|]. split; [exact Hstep|].
  split; [done|]. split; [done|].
  exists (readSlice (list_byte_of_string doc)). split.
  - unfold loadBinFile, ReadFile. cbn [files]. by rewrite lookup_insert_eq.
  - cbn [readSlice elems]. apply string_of_list_byte_of_string.
Qed.

Lemma mainLoop_writes_document_witness :
  exists (doc : string) (w1 : world),
    nfcContentOf (fun _ n => n) (readSlice []) = Ok doc
    /\ mainLoop (fun _ n => n) "dumps" "nfc" ["dumps/c.bin"] batch_world
       = mainLoop (fun _ n => n) "dumps" "nfc" [] w1
    /\ files w1 = <["nfc/c.nfc" := list_byte_of_string doc]> (files batch_world)
    /\ printed w1 = printed batch_world ++ [Stdout ("Proccess file:  " +:+ "dumps/c.bin")]
    /\ (exists fileContent,
          loadBinFile w1 "nfc/c.nfc" = (fileContent, None)
          /\ string_of_list_byte (elems fileContent) = doc).
Proof.
  apply (mainLoop_writes_document (fun _ n => n) "dumps" "nfc" "dumps/c.bin" []
           batch_world []).
  - vm_compute. reflexivity.
  - vm_compute. reflexivity.
Defined.

(** When every listed file can be read at the start, the run ends without
    a panic, whatever writes fail, and prints one line per file, in the
    order of the list. *)
Theorem mainLoop_completes (growCap : nat -> nat -> nat)
    (inputDir outputDir : string) (filesToConvert : list string) (w : world) :
  (forall file, file ∈ filesToConvert -> is_Some (files w !! file)) ->
  (mainLoop growCap inputDir outputDir filesToConvert w).2 = Ok tt
  /\ stdoutLines (printed (mainLoop growCap inputDir outputDir filesToConvert w).1)
     = stdoutLines (printed w)
       ++ ((fun file => "Proccess file:  " +:+ file) <$> filesToConvert).
Proof. apply mainLoop_all_readable. Qed.

Lemma mainLoop_completes_witness :
  (mainLoop (fun _ n => n) "dumps" "nfc" ["dumps/a.bin"; "dumps/c.bin"] batch_world).2
  = Ok tt.
Proof.
  apply (mainLoop_completes (fun _ n => n) "dumps" "nfc" ["dumps/a.bin"; "dumps/c.bin"]
           batch_world).
  intros file Hin. apply list_elem_of_In in Hin.
  destruct Hin as [<-|[<-|[]]]; vm_compute; by eexists.
Defined.

(** The run of the loop ends normally or in the panic of a failed load:
    the conversion of a loaded file never panics and no loop runs out of
    fuel. *)
Theorem mainLoop_ends_normally_or_on_load (growCap : nat -> nat -> nat)
    (inputDir outputDir : string) (filesToConvert : list string) (w : world) :
  (mainLoop growCap inputDir outputDir filesToConvert w).2 = Ok tt
  \/ (mainLoop growCap inputDir outputDir filesToConvert w).2
     = Panic (LogPanic "error when loading file, check filename").
Proof. apply mainLoop_stops_only_on_load. Qed.

(** ** Paths: suffixes and replacement *)

Lemma string_app_cons (c : ascii) (a b : string) :
  String c a +:+ b = String c (a +:+ b).
Proof. reflexivity. Qed.

Lemma length_string_app (a b : string) :
  String.length (a +:+ b) = String.length a + String.length b.
Proof.
  induction a as [|c a IH]; [done|].
  rewrite string_app_cons. cbn [String.length]. by rewrite IH.
Qed.

Lemma substring_all (s : string) : substring 0 (String.length s) s = s.
Proof. induction s as [|c s IH]; [done|]. cbn. by rewrite IH. Qed.

Lemma substring_app_r (a b : string) :
  substring (String.length a) (String.length b) (a +:+ b) = b.
Proof.
  induction a as [|c a IH]; [apply substring_all|].
  rewrite string_app_cons. cbn [String.length substring]. exact IH.
Qed.

Lemma substring_split (s : string) (n : nat) :
  n <= String.length s ->
  s = substring 0 n s +:+ substring n (String.length s - n) s.
Proof.
  revert n. induction s as [|c s IH]; intros [|n] H; cbn [String.length] in H;
    try lia; try done.
  - cbn [substring String.length Nat.sub]. by rewrite substring_all.
  - cbn [substring String.length Nat.sub]. rewrite string_app_cons.
    f_equal. apply IH. lia.
Qed.

(** [HasSuffix] holds exactly of the strings that end in the suffix. *)
Lemma HasSuffix_true (s suffix : string) :
  HasSuffix s suffix = true <-> exists base, s = base +:+ suffix.
Proof.
  unfold HasSuffix. split.
  - intros H. apply andb_true_iff in H as [Hl He].
    apply Nat.leb_le in Hl. apply String.eqb_eq in He.
    exists (substring 0 (String.length s - String.length suffix) s).
    pose proof (substring_split s (String.length s - String.length suffix)
                  ltac:(lia)) as Hs.
    replace (String.length s - (String.length s - String.length suffix))
      with (String.length suffix) in Hs by lia.
    by rewrite He in Hs.
  - intros [base ->]. rewrite length_string_app.
    replace (String.length base + String.length suffix - String.length suffix)
      with (String.length base) by lia.
    rewrite substring_app_r, String.eqb_refl, andb_true_r.
    apply Nat.leb_le. lia.
Qed.

Lemma replaceFrom_skip (old new a rest : string) :
  replaceFrom old new (String.length a) (a +:+ rest) = replaceFrom old new 0 rest.
Proof. induction a as [|c a IH]; [done|]. exact IH. Qed.

Lemma hasPrefix_app (p rest : string) : hasPrefix p (p +:+ rest) = true.
Proof.
  induction p as [|c p IH]; [done|].
  rewrite string_app_cons. cbn [hasPrefix]. by rewrite Ascii.eqb_refl.
Qed.

(** An occurrence at the front is replaced, and the rest is treated on its
    own. *)
Lemma ReplaceAll_prefix (old new rest : string) :
  old <> "" -> ReplaceAll (old +:+ rest) old new = new +:+ ReplaceAll rest old new.
Proof.
  intros Hne. destruct old as [|c old]; [done|]. unfold ReplaceAll.
  rewrite string_app_cons. cbn [replaceFrom].
  rewrite <- string_app_cons, hasPrefix_app.
  cbn [String.length].
  replace (S (String.length old) - 1) with (String.length old) by lia.
  by rewrite replaceFrom_skip.
Qed.

(** Without an occurrence nothing changes. *)
Lemma ReplaceAll_absent (s old new : string) :
  Contains s old = false -> ReplaceAll s old new = s.
Proof.
  unfold ReplaceAll. destruct old as [|c old]; [done|].
  induction s as [|d s IH]; [done|]. intros H. cbn [Contains] in H.
  apply orb_false_iff in H as [Hp Hc].
  cbn [replaceFrom]. rewrite Hp. f_equal. by apply IH.
Qed.

Lemma hasPrefix_bin_app (x : string) :
  x <> "" -> hasPrefix ".bin" (x +:+ ".bin") = hasPrefix ".bin" x.
Proof.
  intros Hne.
  destruct x as [|c0 [|c1 [|c2 [|c3 x]]]]; [done|..];
    rewrite ?string_app_cons; cbn [hasPrefix append];
    destruct (Ascii.eqb_spec "." c0) as [<-|]; try done;
    destruct (Ascii.eqb_spec "b" c1) as [<-|]; try done;
    destruct (Ascii.eqb_spec "i" c2) as [<-|]; try done.
Qed.

Lemma ReplaceAll_bin_suffix (x : string) :
  Contains x ".bin" = false -> ReplaceAll (x +:+ ".bin") ".bin" ".nfc" = x +:+ ".nfc".
Proof.
  unfold ReplaceAll. induction x as [|c x IH]; [done|]. intros H.
  cbn [Contains] in H. apply orb_false_iff in H as [Hp Hc].
  rewrite !string_app_cons. cbn [replaceFrom].
  rewrite <- string_app_cons, hasPrefix_bin_app, Hp by done.
  f_equal. by apply IH.
Qed.

(** The output path mirrors the input path when the names do not
    interfere: for a dump [inputDir ++ rel ++ ".bin"] in which [inputDir]
    does not occur again and for which [outputDir ++ rel] contains no
    [.bin], the output path is [outputDir ++ rel ++ ".nfc"]. *)
Theorem outputPathOf_mirrors (inputDir outputDir rel : string) :
  inputDir <> "" ->
  Contains (rel +:+ ".bin") inputDir = false ->
  Contains (outputDir +:+ rel) ".bin" = false ->
  outputPathOf inputDir outputDir (inputDir +:+ rel +:+ ".bin")
  = outputDir +:+ rel +:+ ".nfc".
Proof.
  intros Hne Hin Hbin. unfold outputPathOf.
  rewrite ReplaceAll_prefix by exact Hne.
  rewrite (ReplaceAll_absent _ _ _ Hin).
  rewrite <- (string_app_assoc outputDir rel ".bin"),
    <- (string_app_assoc outputDir rel ".nfc").
  by apply ReplaceAll_bin_suffix.
Qed.

Lemma outputPathOf_mirrors_witness :
  outputPathOf "Amiibo Bins" "output" "Amiibo Bins/Zelda/Link.bin"
  = "output/Zelda/Link.nfc".
Proof.
  apply (outputPathOf_mirrors "Amiibo Bins" "output" "/Zelda/Link");
    [discriminate | reflexivity | reflexivity].
Defined.

(** Both replacements act on every occurrence, not on the front and the
    end of the path only: with [-input in -output out] the dump
    [in/a.bin] is written to [out/a.bout]. *)
Example outputPathOf_inner_occurrence :
  outputPathOf "in" "out" "in/a.bin" = "out/a.bout"
  /\ outputPathOf "dumps" "nfc" "dumps/old.bin.d/a.bin" = "nfc/old.nfc.d/a.nfc".
Proof. split; reflexivity. Qed.

(** ** Finding the dumps *)

Lemma Walk_cons_entry (path : string) (isDir : bool) (rest : list visit)
    (files : list string) :
  Walk (Entry path isDir :: rest) files
  = Walk rest (if HasSuffix path ".bin" && negb isDir then files ++ [path] else files).
Proof. cbn [Walk walkFn]. by destruct (HasSuffix path ".bin" && negb isDir). Qed.

Lemma binPaths_cons (path : string) (isDir : bool) (entries : list (string * bool)) :
  binPaths ((path, isDir) :: entries)
  = if HasSuffix path ".bin" && negb isDir
    then path :: binPaths entries
    else binPaths entries.
Proof.
  unfold binPaths. rewrite filter_cons.
  change (HasSuffix (path, isDir).1 ".bin" && negb (path, isDir).2)
    with (HasSuffix path ".bin" && negb isDir).
  destruct (HasSuffix path ".bin" && negb isDir) eqn:E.
  - by rewrite decide_True.
  - by rewrite decide_False.
Qed.

Lemma Walk_entries (entries : list (string * bool)) (files : list string) :
  Walk ((fun e => Entry e.1 e.2) <$> entries) files = (files ++ binPaths entries, None).
Proof.
  revert files. induction entries as [|[path isDir] entries IH]; intros files.
  - cbn. by rewrite app_nil_r.
  - rewrite fmap_cons, binPaths_cons. cbn [fst snd].
    rewrite Walk_cons_entry, IH.
    destruct (HasSuffix path ".bin" && negb isDir); [|done].
    by rewrite <- app_assoc.
Qed.

Lemma Walk_failure (entries : list (string * bool)) (path : string) (err : error)
    (rest : list visit) (files : list string) :
  Walk (((fun e => Entry e.1 e.2) <$> entries) ++ Failure path err :: rest) files
  = (files ++ binPaths entries, Some err).
Proof.
  revert files. induction entries as [|[p isDir] entries IH]; intros files.
  - cbn. by rewrite app_nil_r.
  - rewrite fmap_cons, binPaths_cons. cbn [fst snd app].
    rewrite Walk_cons_entry, IH.
    destruct (HasSuffix p ".bin" && negb isDir); [|done].
    by rewrite <- app_assoc.
Qed.

(** [getAllBinFiles] returns, in the order of the walk, the paths of the
    entries that are not directories and end in [.bin], up to the first
    entry that could not be examined; it logs that error and returns what
    it has collected. Every path it returns is a non-directory entry whose
    name is some text followed by [.bin]. *)
Theorem getAllBinFiles_result (w : world) (entries : list (string * bool)) :
  getAllBinFiles w ((fun e => Entry e.1 e.2) <$> entries) = (w, binPaths entries)
  /\ (forall path err rest,
        getAllBinFiles w
          (((fun e => Entry e.1 e.2) <$> entries) ++ Failure path err :: rest)
        = (emit w (Logged err), binPaths entries))
  /\ (forall file, file ∈ binPaths entries <->
        (file, false) ∈ entries /\ exists base, file = base +:+ ".bin").
Proof.
  split; [|split].
  - unfold getAllBinFiles. by rewrite Walk_entries.
  - intros path err rest. unfold getAllBinFiles. by rewrite Walk_failure.
  - intros file. unfold binPaths. rewrite list_elem_of_fmap. split.
    + intros ([p d] & -> & Hin). apply list_elem_of_filter in Hin as [Hc Hin].
      cbn [fst snd] in *. apply andb_true_iff in Hc as [Hs Hd].
      destruct d; [done|]. split; [done|]. by apply HasSuffix_true.
    + intros [Hin Hb]. exists (file, false). split; [done|].
      apply list_elem_of_filter. split; [|done]. cbn [fst snd].
      apply HasSuffix_true in Hb. by rewrite Hb.
Qed.

(** [main] converts exactly the dumps the walk has found. When the walk
    fails, the error is logged and the dumps found before it are still
    converted; when the input directory itself cannot be examined, the
    error is logged, nothing is read or written and the run ends
    normally. *)
Theorem main_converts_what_the_walk_finds (growCap : nat -> nat -> nat)
    (inputDir outputDir : string) (w : world) (entries : list (string * bool)) :
  main growCap inputDir outputDir ((fun e => Entry e.1 e.2) <$> entries) w
  = mainLoop growCap inputDir outputDir (binPaths entries) w
  /\ (forall path err rest,
        main growCap inputDir outputDir
          (((fun e => Entry e.1 e.2) <$> entries) ++ Failure path err :: rest) w
        = mainLoop growCap inputDir outputDir (binPaths entries) (emit w (Logged err)))
  /\ (forall err rest,
        main growCap inputDir outputDir (Failure inputDir err :: rest) w
        = (emit w (Logged err), Ok tt)).
Proof.
  unfold main, getAllBinFiles. split; [|split].
  - by rewrite Walk_entries.
  - intros path err rest. by rewrite Walk_failure.
  - done.
Qed.
